(** * Python-Arduino-Command-API: the host side of the serial command protocol

    A shallow embedding of [Arduino/arduino.py]: the command framer
    [build_cmd_str], the handshake [get_version], port discovery
    [find_port], and the methods of the [Arduino] session class, over a
    model of the pyserial connection object the code drives. *)

From Stdlib Require Import String Ascii List ZArith Bool Arith Lia DecimalString.
From Stdlib Require Import DecimalPos DecimalZ.
Import ListNotations.
Local Open Scope list_scope.
Local Open Scope string_scope.

(** ** Python values that reach the framer *)

(** Pin numbers, duty values and I2C addresses are Python integers
    (unbounded, hence [Z]); levels, modes and replies are [str]. *)
Inductive pyval : Type :=
| PInt (z : Z)
| PStr (s : string).

(** [str(v)]: decimal notation with a leading minus sign for an integer,
    the string itself for a string. *)
Definition py_str (v : pyval) : string :=
  match v with
  | PInt z => NilZero.string_of_int (Z.to_int z)
  | PStr s => s
  end.

(** [a == b] on the values above: an [int] never equals a [str]. *)
Definition py_eq (a b : pyval) : bool :=
  match a, b with
  | PInt x, PInt y => Z.eqb x y
  | PStr s, PStr t => String.eqb s t
  | _, _ => false
  end.

Definition py_ne (a b : pyval) : bool := negb (py_eq a b).

(** The [args] parameter of [build_cmd_str].  The callers pass a tuple,
    nothing at all (the default [None]), or, as in [build_cmd_str("un", (""))],
    a parenthesised string, which is a [str] and not a tuple. *)
Inductive pyargs : Type :=
| ArgsNone
| ArgsTuple (l : list pyval)
| ArgsStr (s : string).

(** Truth value of [args] in [if args:]. *)
Definition py_truthy (args : pyargs) : bool :=
  match args with
  | ArgsNone => false
  | ArgsTuple [] => false
  | ArgsTuple (_ :: _) => true
  | ArgsStr "" => false
  | ArgsStr (String _ _) => true
  end.

(** Iterating [args]: the members of a tuple, the one-character strings
    of a [str]. *)
Definition py_iter (args : pyargs) : list pyval :=
  match args with
  | ArgsNone => []
  | ArgsTuple l => l
  | ArgsStr s => map (fun c => PStr (String c "")) (list_ascii_of_string s)
  end.

(** [sep.join(l)]. *)
Definition py_join (sep : string) (l : list string) : string :=
  String.concat sep l.

(** ** The command framer *)

(** [build_cmd_str(cmd, args=None)]. *)
Definition build_cmd_str (cmd : string) (args : pyargs) : string :=
  let args :=
    if py_truthy args then py_join "%" (map py_str (py_iter args))
    else "" in
  "@" ++ cmd ++ "%" ++ args ++ "$!".

(** The argument strings of a call, as the framer sees them. *)
Definition arg_strings (args : pyargs) : list string :=
  map py_str (py_iter args).

(** The argument segment in the words of the specification: empty for no
    arguments, otherwise the representations with a [%] between each two. *)
Fixpoint percent_separated (first : string) (rest : list string) : string :=
  match rest with
  | [] => first
  | s :: rest' => first ++ "%" ++ percent_separated s rest'
  end.

Definition argument_segment (strs : list string) : string :=
  match strs with
  | [] => ""
  | s :: rest => percent_separated s rest
  end.

(** ** The inverse parse of a frame *)

(** [contains c s]: the character [c] occurs in [s]. *)
Fixpoint contains (c : ascii) (s : string) : bool :=
  match s with
  | "" => false
  | String d r => Ascii.eqb d c || contains c r
  end.

(** Cut [s] at every occurrence of [sep]; the pieces are never an empty
    list. *)
Fixpoint split_on (sep : ascii) (s : string) : list string :=
  match s with
  | "" => [""]
  | String c r =>
      if Ascii.eqb c sep then "" :: split_on sep r
      else match split_on sep r with
           | [] => [String c ""]
           | piece :: pieces => String c piece :: pieces
           end
  end.

(** Remove the terminator [$!] that ends [s]. *)
Fixpoint drop_terminator (s : string) : option string :=
  if String.eqb s "$!" then Some ""
  else match s with
       | "" => None
       | String c r => option_map (String c) (drop_terminator r)
       end.

(** Modelled from the spec: the inverse parse of a frame is not in
    [arduino.py] (the receiving side is the device firmware); it is taken
    from the frame grammar
    [@<command>%<arg1>%<arg2>%...%<argN>$!]: the start marker [@] is
    removed from the front, the terminator [$!] from the end, and what is
    left is split at every [%]; the first piece is the command name, the
    others are the arguments, and exactly one [%] followed at once by [$!]
    is the frame of an empty argument list. *)
Definition parse_frame (frame : string) : option (string * list string) :=
  match frame with
  | String "@" rest =>
      match drop_terminator rest with
      | Some body =>
          match split_on "%" body with
          | [] => None
          | name :: [""] => Some (name, [])
          | name :: args => Some (name, args)
          end
      | None => None
      end
  | _ => None
  end.

(** ** Exceptions and results *)

Inductive exn : Type :=
| SerialException
| ValueError (msg : string)
| Exception.

Inductive result (A : Type) : Type :=
| Ok (a : A)
| Raise (e : exn).
Arguments Ok {A} a.
Arguments Raise {A} e.

(** A computation on a mutable object of type [S]: it returns or raises,
    and in both cases leaves the object in some state. *)
Definition M (S A : Type) : Type := S -> result A * S.

Definition ret {S A} (a : A) : M S A := fun s => (Ok a, s).

Definition bind {S A B} (c : M S A) (k : A -> M S B) : M S B :=
  fun s =>
    match c s with
    | (Ok a, s') => k a s'
    | (Raise e, s') => (Raise e, s')
    end.

Definition raise {S A} (e : exn) : M S A := fun s => (Raise e, s).

(** [try: c  except Exception: h]. *)
Definition catch {S A} (c : M S A) (h : exn -> M S A) : M S A :=
  fun s =>
    match c s with
    | (Ok a, s') => (Ok a, s')
    | (Raise e, s') => h e s'
    end.

Declare Scope py_scope.
Delimit Scope py_scope with py.
Notation "x <- c ;; k" := (bind c (fun x => k))
  (at level 61, c at next level, right associativity) : py_scope.
Notation "c ;; k" := (bind c (fun _ => k))
  (at level 61, right associativity) : py_scope.
Local Open Scope py_scope.

(** ** The serial connection ([serial.Serial]) *)

(** The methods the code calls on a connection. *)
Inductive call : Type :=
| CWrite (data : string)
| CFlush
| CFlushInput
| CReadline
| CClose.

(** A connection object.  [inbuf] holds the lines received and not yet
    read, which [flushInput] discards; [wire] is what arrives afterwards,
    one [readline] at a time, and [wire k = ""] is a read that timed out
    with nothing received; [arrived] counts the lines taken from [wire].
    [write_fails] stands for a device on which the operating system
    rejects writes.  [calls] records every method call, oldest first. *)
Record Serial : Type := mkSerial {
  port : string;
  baudrate : Z;
  timeout : Z;
  is_open : bool;
  write_fails : bool;
  inbuf : list string;
  wire : nat -> string;
  arrived : nat;
  calls : list call
}.

Definition log_call (c : call) (s : Serial) : Serial :=
  mkSerial (port s) (baudrate s) (timeout s) (is_open s) (write_fails s)
           (inbuf s) (wire s) (arrived s) (calls s ++ [c]).

Definition set_is_open (b : bool) (s : Serial) : Serial :=
  mkSerial (port s) (baudrate s) (timeout s) b (write_fails s)
           (inbuf s) (wire s) (arrived s) (calls s).

Definition set_inbuf (l : list string) (s : Serial) : Serial :=
  mkSerial (port s) (baudrate s) (timeout s) (is_open s) (write_fails s)
           l (wire s) (arrived s) (calls s).

Definition take_from_wire (s : Serial) : Serial :=
  mkSerial (port s) (baudrate s) (timeout s) (is_open s) (write_fails s)
           (inbuf s) (wire s) (S (arrived s)) (calls s).

(** [sr.write(data)]: raises on a closed port or a failing device. *)
Definition sr_write (data : string) : M Serial unit :=
  fun s =>
    let s := log_call (CWrite data) s in
    if is_open s && negb (write_fails s) then (Ok tt, s)
    else (Raise SerialException, s).

(** [sr.flush()]: waits until the output is written; raises on a closed
    port. *)
Definition sr_flush : M Serial unit :=
  fun s =>
    let s := log_call CFlush s in
    if is_open s then (Ok tt, s) else (Raise SerialException, s).

(** [sr.flushInput()]: discards the unread input; raises on a closed
    port. *)
Definition sr_flushInput : M Serial unit :=
  fun s =>
    let s := log_call CFlushInput s in
    if is_open s then (Ok tt, set_inbuf [] s) else (Raise SerialException, s).

(** [sr.readline()]: the next line, from the unread input first; raises on
    a closed port. *)
Definition sr_readline : M Serial string :=
  fun s =>
    let s := log_call CReadline s in
    if is_open s then
      match inbuf s with
      | l :: rest => (Ok l, set_inbuf rest s)
      | [] => (Ok (wire s (arrived s)), take_from_wire s)
      end
    else (Raise SerialException, s).

(** [sr.isOpen()]. *)
Definition sr_isOpen : M Serial bool :=
  fun s => (Ok (is_open s), s).

(** [sr.close()]: the physical close. *)
Definition sr_close : M Serial unit :=
  fun s => (Ok tt, set_is_open false (log_call CClose s)).

(** A connection object is an ordinary object: it is true in [if sr:]. *)
Definition Serial_truthy (s : Serial) : bool := true.

(** [s.replace("\r\n", "")]: every CR LF pair is removed, scanning from
    the left. *)
Fixpoint replace_crlf (s : string) : string :=
  match s with
  | "" => ""
  | String c r =>
      if Ascii.eqb c "013" then
        match r with
        | String d r' =>
            if Ascii.eqb d "010" then replace_crlf r'
            else String c (replace_crlf r)
        | "" => String c ""
        end
      else String c (replace_crlf r)
  end.

(** ** The handshake *)

(** [get_version(sr)]: [None] when the write or the flush raised,
    otherwise the next line without its CR LF. *)
Definition get_version : M Serial (option string) :=
  let cmd_str := build_cmd_str "version" ArgsNone in
  sent <- catch (sr_write cmd_str ;; sr_flush ;; ret true)
                (fun _ => ret false) ;;
  if sent : bool then
    line <- sr_readline ;;
    ret (Some (replace_crlf line))
  else ret None.

(** ** The host: platform, port inventory and attached devices *)

(** What is attached behind a device path: the lines already received when
    the handshake starts (a board resets when its port is opened and may
    talk during the settle delay), the lines it sends afterwards, and
    whether writes to it fail. *)
Record Device : Type := mkDevice {
  boot_lines : list string;
  replies : nat -> string;
  rejects_writes : bool
}.

(** The machine the code runs on.  [winreg_SERIALCOMM] is the registry key
    [HARDWARE\DEVICEMAP\SERIALCOMM]: [None] when opening it raises
    [WindowsError], otherwise the data of its values in order.  [comports]
    is the first member of every entry of [list_ports.comports()]. *)
Record Host : Type := mkHost {
  platform_system : string;
  winreg_SERIALCOMM : option (list string);
  comports : list string;
  glob_glob : string -> list string;
  attached : string -> option Device
}.

(** [serial.Serial(p, baud, timeout=timeout)]: a fresh open connection, or
    [SerialException] when the device cannot be opened. *)
Definition serial_Serial (h : Host) (p : string) (baud timeout : Z)
  : result Serial :=
  match attached h p with
  | Some d =>
      Ok (mkSerial p baud timeout true (rejects_writes d)
                   (boot_lines d) (replies d) 0 [])
  | None => Raise SerialException
  end.

(** [enumerate_serial_ports()]. *)
Definition enumerate_serial_ports (h : Host) : result (list string) :=
  match winreg_SERIALCOMM h with
  | None => Raise Exception
  | Some vals => Ok vals
  end.

(** The candidate ports of [find_port], by platform. *)
Definition candidate_ports (h : Host) : result (list string) :=
  if String.eqb (platform_system h) "Windows" then enumerate_serial_ports h
  else if String.eqb (platform_system h) "Darwin" then Ok (comports h)
  else Ok (glob_glob h "/dev/ttyUSB*" ++ glob_glob h "/dev/ttyACM*")%list.

(** ** Discovery *)

(** A candidate that discovery went past: its path and, when it could be
    opened, the connection object as discovery left it. *)
Record Probe : Type := mkProbe {
  probe_port : string;
  probe_conn : option Serial
}.

(** [version != 'version'] for the result of [get_version]. *)
Definition version_mismatch (version : option string) : bool :=
  match version with
  | Some v => negb (String.eqb v "version")
  | None => true
  end.

(** The [for p in ports:] loop of [find_port]; [past] collects the
    candidates the loop has gone past. *)
Fixpoint find_port_loop (h : Host) (baud timeout : Z) (ports : list string)
    (past : list Probe) : result (option Serial) * list Probe :=
  match ports with
  | [] => (Ok None, past)
  | p :: ports' =>
      match serial_Serial h p baud timeout with
      | Raise _ =>
          find_port_loop h baud timeout ports' (past ++ [mkProbe p None])
      | Ok sr =>
          (* time.sleep(2) *)
          match get_version sr with
          | (Raise e, sr) => (Raise e, (past ++ [mkProbe p (Some sr)])%list)
          | (Ok version, sr) =>
              if version_mismatch version then
                let sr := snd (sr_close sr) in
                find_port_loop h baud timeout ports'
                               (past ++ [mkProbe p (Some sr)])
              else if Serial_truthy sr then (Ok (Some sr), past)
              else find_port_loop h baud timeout ports'
                                  (past ++ [mkProbe p (Some sr)])
          end
      end
  end.

(** [find_port(baud, timeout)], with the candidates it went past. *)
Definition find_port (h : Host) (baud timeout : Z)
  : result (option Serial) * list Probe :=
  match candidate_ports h with
  | Raise e => (Raise e, [])
  | Ok ports => find_port_loop h baud timeout ports []
  end.

(** ** The session class *)

Record Arduino : Type := mkArduino { sr : Serial }.

(** A call on [self.sr]. *)
Definition self_sr {A} (c : M Serial A) : M Arduino A :=
  fun self =>
    let (r, s) := c (sr self) in (r, mkArduino s).

(** The [port] argument when it is true in [if not port:]: neither [None]
    nor the empty string. *)
Definition port_given (port : option string) : option string :=
  match port with
  | Some (String c r) => Some (String c r)
  | _ => None
  end.

(** [Arduino.__init__(self, baud=9600, port=None, timeout=3, sr=None)],
    with the candidates discovery went past. *)
Definition Arduino_init (h : Host) (baud : Z) (port : option string)
    (timeout : Z) (sr : option Serial) : result Arduino * list Probe :=
  let found : result Serial * list Probe :=
    match sr with
    | Some sr => (Ok sr, [])
    | None =>
        match port_given port with
        | None =>
            match find_port h baud timeout with
            | (Raise e, past) => (Raise e, past)
            | (Ok None, past) =>
                (Raise (ValueError "Could not find port."), past)
            | (Ok (Some sr), past) => (Ok sr, past)
            end
        | Some port => (serial_Serial h port baud timeout, [])
        end
    end in
  match found with
  | (Raise e, past) => (Raise e, past)
  | (Ok sr, past) =>
      match sr_flush sr with
      | (Raise e, _) => (Raise e, past)
      | (Ok _, sr) => (Ok (mkArduino sr), past)
      end
  end.

Definition default_baud : Z := 9600.
Definition default_timeout : Z := 3.

(** [version(self)]. *)
Definition version : M Arduino (option string) :=
  self_sr get_version.

(** [digitalWrite(self, pin, val)]. *)
Definition digitalWrite (pin : Z) (val : pyval) : M Arduino unit :=
  let pin_ := if py_eq val (PStr "LOW") then (- pin)%Z else pin in
  let cmd_str := build_cmd_str "dw" (ArgsTuple [PInt pin_]) in
  self_sr (sr_write cmd_str) ;;
  self_sr sr_flush.

(** [analogWrite(self, pin, val)]. *)
Definition analogWrite (pin : pyval) (val : Z) : M Arduino unit :=
  let val := if (val >? 255)%Z then 255%Z
             else if (val <? 0)%Z then 0%Z
             else val in
  let cmd_str := build_cmd_str "aw" (ArgsTuple [pin; PInt val]) in
  self_sr (sr_write cmd_str) ;;
  self_sr sr_flush.

Section Builtins.

(** [int(s)] for a [str]: [None] when it raises [ValueError]. *)
Variable py_int : string -> option Z.

(** [analogRead(self, pin)]. *)
Definition analogRead (pin : pyval) : M Arduino Z :=
  let cmd_str := build_cmd_str "ar" (ArgsTuple [pin]) in
  self_sr sr_flushInput ;;
  self_sr (sr_write cmd_str) ;;
  self_sr sr_flush ;;
  line <- self_sr sr_readline ;;
  let rd := replace_crlf line in
  match py_int rd with
  | Some n => ret n
  | None => raise (ValueError "invalid literal for int()")
  end.

End Builtins.

(** [digitalRead(self, pin)]. *)
Definition digitalRead (pin : pyval) : M Arduino string :=
  let cmd_str := build_cmd_str "dr" (ArgsTuple [pin]) in
  self_sr sr_flushInput ;;
  self_sr (sr_write cmd_str) ;;
  self_sr sr_flush ;;
  line <- self_sr sr_readline ;;
  let rd := replace_crlf line in
  ret rd.

(** [pinMode(self, pin, val)]. *)
Definition pinMode (pin : Z) (val : pyval) : M Arduino unit :=
  let pin_ := if py_eq val (PStr "INPUT") then (- pin)%Z else pin in
  let cmd_str := build_cmd_str "pm" (ArgsTuple [PInt pin_]) in
  self_sr sr_flushInput ;;
  self_sr (sr_write cmd_str) ;;
  self_sr sr_flush.

(** [pinModePullUp(self, pin)]. *)
Definition pinModePullUp (pin : pyval) : M Arduino unit :=
  let cmd_str := build_cmd_str "pp" (ArgsTuple [pin]) in
  self_sr sr_flushInput ;;
  self_sr (sr_write cmd_str) ;;
  self_sr sr_flush.

(** [close(self)]. *)
Definition close : M Arduino unit :=
  opened <- self_sr sr_isOpen ;;
  if opened : bool then
    self_sr sr_flush ;;
    self_sr sr_close
  else ret tt.

(** [I2Csetup(self, addr)]. *)
Definition I2Csetup (addr : pyval) : M Arduino unit :=
  let cmd_str := build_cmd_str "ac" (ArgsTuple [addr]) in
  self_sr sr_flushInput ;;
  self_sr (sr_write cmd_str) ;;
  self_sr sr_flush.

(** [I2Cwritehigh(self, addr)]. *)
Definition I2Cwritehigh (addr : pyval) : M Arduino unit :=
  let cmd_str := build_cmd_str "hc" (ArgsTuple [addr]) in
  self_sr sr_flushInput ;;
  self_sr (sr_write cmd_str) ;;
  self_sr sr_flush.

(** [I2Cwritelow(self, addr)]. *)
Definition I2Cwritelow (addr : pyval) : M Arduino unit :=
  let cmd_str := build_cmd_str "ic" (ArgsTuple [addr]) in
  self_sr sr_flushInput ;;
  self_sr (sr_write cmd_str) ;;
  self_sr sr_flush.

(** [I2CUnstick(self)]. *)
Definition I2CUnstick : M Arduino string :=
  let cmd_str := build_cmd_str "un" (ArgsStr "") in
  self_sr sr_flushInput ;;
  self_sr (sr_write cmd_str) ;;
  self_sr sr_flush ;;
  line <- self_sr sr_readline ;;
  let rd := replace_crlf line in
  ret rd.

(** The state of the [while] loop of [I2CScan]: the variable [x], which
    starts as the integer [0], and the list [test]. *)
Definition scan_state : Type := (pyval * list string)%type.

(** The loop test [x != "done"]. *)
Definition I2CScan_cond (st : scan_state) : bool :=
  py_ne (fst st) (PStr "done").

(** One pass through the loop body ([print x] writes to the standard
    output, which is not part of the state). *)
Definition I2CScan_body (st : scan_state) : M Arduino scan_state :=
  let (x, test) := st in
  line <- self_sr sr_readline ;;
  let x := replace_crlf line in
  if py_ne (PStr x) (PStr "done") then ret (PStr x, (test ++ [x])%list)
  else ret (PStr x, test).

(** The [while] loop, cut off after [fuel] evaluations of its test:
    [None] means that the loop is still running then. *)
Fixpoint I2CScan_while (fuel : nat) (st : scan_state) (self : Arduino)
  : option (result (list string) * Arduino) :=
  match fuel with
  | O => None
  | S fuel' =>
      if I2CScan_cond st then
        match I2CScan_body st self with
        | (Ok st', self') => I2CScan_while fuel' st' self'
        | (Raise e, self') => Some (Raise e, self')
        end
      else Some (Ok (snd st), self)
  end.

(** The request that opens [I2CScan]. *)
Definition I2CScan_request : M Arduino unit :=
  let cmd_str := build_cmd_str "ick" (ArgsStr "") in
  self_sr sr_flushInput ;;
  self_sr (sr_write cmd_str) ;;
  self_sr sr_flush.

(** [I2CScan(self)]. *)
Definition I2CScan (fuel : nat) (self : Arduino)
  : option (result (list string) * Arduino) :=
  match I2CScan_request self with
  | (Raise e, self') => Some (Raise e, self')
  | (Ok _, self') => I2CScan_while fuel (PInt 0, []) self'
  end.

(** The loop after exactly [k] passes through its body, when it is still
    running: the state of [x] and [test] and of the session. *)
Fixpoint I2CScan_passes (k : nat) (st : scan_state) (self : Arduino)
  : option (scan_state * Arduino) :=
  match k with
  | O => Some (st, self)
  | S k' =>
      if I2CScan_cond st then
        match I2CScan_body st self with
        | (Ok st', self') => I2CScan_passes k' st' self'
        | (Raise _, _) => None
        end
      else None
  end.

(** [ConfI2C(self, address, reg, highdata, lowdata)]. *)
Definition ConfI2C (address reg highdata lowdata : pyval) : M Arduino unit :=
  let cmd_str :=
    build_cmd_str "cic" (ArgsTuple [address; reg; highdata; lowdata]) in
  self_sr sr_flushInput ;;
  self_sr (sr_write cmd_str) ;;
  self_sr sr_flush.

(** [WriteI2C(self, address, reg, data)]. *)
Definition WriteI2C (address reg data : pyval) : M Arduino unit :=
  let cmd_str := build_cmd_str "wic" (ArgsTuple [address; reg; data]) in
  self_sr sr_flushInput ;;
  self_sr (sr_write cmd_str) ;;
  self_sr sr_flush.

(** [getRegRaw(self, address, reg)]. *)
Definition getRegRaw (address reg : pyval) : M Arduino string :=
  let cmd_str := build_cmd_str "grr" (ArgsTuple [address; reg]) in
  self_sr sr_flushInput ;;
  self_sr (sr_write cmd_str) ;;
  self_sr sr_flush ;;
  line <- self_sr sr_readline ;;
  let Raw := replace_crlf line in
  ret Raw.

(** [SoftReset(self)]. *)
Definition SoftReset : M Arduino unit :=
  let cmd_str := build_cmd_str "res" (ArgsStr "") in
  self_sr sr_flushInput ;;
  self_sr (sr_write cmd_str) ;;
  self_sr sr_flush.

(** ** Vocabulary of the properties *)

(** The line terminator of a reply. *)
Definition CRLF : string := String "013" (String "010" "").

(** The first line a freshly opened device delivers to [readline]. *)
Definition first_reply (d : Device) : string :=
  match boot_lines d with
  | l :: _ => l
  | [] => replies d 0
  end.

(** The candidate passes the handshake: it can be opened, it takes the
    write, and the line it delivers is [version] once CR LF is removed. *)
Definition answers_handshake (h : Host) (p : string) : bool :=
  match attached h p with
  | Some d =>
      negb (rejects_writes d)
      && String.eqb (replace_crlf (first_reply d)) "version"
  | None => false
  end.

(** Discovery left no open connection on this candidate. *)
Definition probe_closed (pr : Probe) : bool :=
  match probe_conn pr with
  | Some s => negb (is_open s)
  | None => true
  end.

Definition is_close (c : call) : bool :=
  match c with
  | CClose => true
  | _ => false
  end.

(** Number of physical closes among the calls. *)
Definition physical_closes (l : list call) : nat :=
  length (filter is_close l).

(** The [k]-th line a connection will take from the wire, without its
    CR LF, and the first [n] of them. *)
Definition stripped_line (s : Serial) (k : nat) : string :=
  replace_crlf (wire s (arrived s + k)).

Definition stripped_lines (s : Serial) (n : nat) : list string :=
  map (stripped_line s) (seq 0 n).

(** A wire that delivers the lines of [l] and then only timeouts. *)
Definition lines_of (l : list string) : nat -> string :=
  fun k => nth k l "".

(** A session is ready for a request when its port is open and takes
    writes. *)
Definition ready (self : Arduino) : bool :=
  is_open (sr self) && negb (write_fails (sr self)).

(** The calls of a request that clears the input first. *)
Definition request_calls (frame : string) : list call :=
  [CFlushInput; CWrite frame; CFlush].

(** The three calls that open a request which clears the input first. *)
Definition request (frame : string) : M Arduino unit :=
  self_sr sr_flushInput ;;
  self_sr (sr_write frame) ;;
  self_sr sr_flush.

(** A ready connection after such a request: the unread input is gone and
    the three calls are on record. *)
Definition after_request (frame : string) (s : Serial) : Serial :=
  mkSerial (port s) (baudrate s) (timeout s) (is_open s) (write_fails s)
           [] (wire s) (arrived s) (calls s ++ request_calls frame).

(** A ready connection after a write and a flush alone: the unread input
    is still there. *)
Definition after_send (frame : string) (s : Serial) : Serial :=
  mkSerial (port s) (baudrate s) (timeout s) (is_open s) (write_fails s)
           (inbuf s) (wire s) (arrived s) (calls s ++ [CWrite frame; CFlush]).

(** A session in the middle of a scan: the port is open and the input
    buffer is empty, so that every read takes the next line of the wire. *)
Definition reading (self : Arduino) : Prop :=
  is_open (sr self) = true /\ inbuf (sr self) = [].

(** [later] is [earlier] after [k] more lines were read from the wire. *)
Definition reads_on (k : nat) (earlier later : Arduino) : Prop :=
  reading later
  /\ wire (sr later) = wire (sr earlier)
  /\ arrived (sr later) = arrived (sr earlier) + k
  /\ calls (sr later) = (calls (sr earlier) ++ repeat CReadline k)%list.

(** An open session on a test bench: [input] is already in the input
    buffer, [lines] will arrive on the wire. *)
Definition bench (input lines : list string) : Arduino :=
  mkArduino (mkSerial "/dev/ttyACM0" default_baud default_timeout true false
                      input (lines_of lines) 0 []).

(** A board that answers the handshake with [reply]. *)
Definition board (reply : string) : Device :=
  mkDevice [] (lines_of [reply ++ CRLF]) false.

(** A Linux host with three candidates: the first cannot be opened, the
    second answers [garbage], the third answers [third]. *)
Definition three_port_host (third : string) : Host :=
  mkHost "Linux" None []
    (fun pattern =>
       if String.eqb pattern "/dev/ttyUSB*" then ["/dev/ttyUSB0"; "/dev/ttyUSB1"]
       else if String.eqb pattern "/dev/ttyACM*" then ["/dev/ttyACM0"]
       else [])
    (fun p =>
       if String.eqb p "/dev/ttyUSB1" then Some (board "garbage")
       else if String.eqb p "/dev/ttyACM0" then Some (board third)
       else None).

(** ** Vocabulary of the further properties *)

(** A reader of plain decimal literals with an optional minus sign; it
    stands for [int] in examples, on strings where the two agree. *)
Definition decimal_int (s : string) : option Z :=
  option_map Z.of_int (NilZero.int_of_string s).

(** The methods of a session that send one request. *)
Inductive operation : Type :=
| OpVersion
| OpDigitalWrite (pin : Z) (val : pyval)
| OpAnalogWrite (pin : pyval) (val : Z)
| OpAnalogRead (pin : pyval)
| OpDigitalRead (pin : pyval)
| OpPinMode (pin : Z) (val : pyval)
| OpPinModePullUp (pin : pyval)
| OpI2Csetup (addr : pyval)
| OpI2Cwritehigh (addr : pyval)
| OpI2Cwritelow (addr : pyval)
| OpI2CUnstick
| OpConfI2C (address reg highdata lowdata : pyval)
| OpWriteI2C (address reg data : pyval)
| OpGetRegRaw (address reg : pyval)
| OpSoftReset.

(** Calling the method, its return value dropped. *)
Definition perform (py_int : string -> option Z) (op : operation)
  : M Arduino unit :=
  match op with
  | OpVersion => version ;; ret tt
  | OpDigitalWrite pin val => digitalWrite pin val
  | OpAnalogWrite pin val => analogWrite pin val
  | OpAnalogRead pin => analogRead py_int pin ;; ret tt
  | OpDigitalRead pin => digitalRead pin ;; ret tt
  | OpPinMode pin val => pinMode pin val
  | OpPinModePullUp pin => pinModePullUp pin
  | OpI2Csetup addr => I2Csetup addr
  | OpI2Cwritehigh addr => I2Cwritehigh addr
  | OpI2Cwritelow addr => I2Cwritelow addr
  | OpI2CUnstick => I2CUnstick ;; ret tt
  | OpConfI2C a r h l => ConfI2C a r h l
  | OpWriteI2C a r d => WriteI2C a r d
  | OpGetRegRaw a r => getRegRaw a r ;; ret tt
  | OpSoftReset => SoftReset
  end.

(** The frame the method sends. *)
Definition frame_of (op : operation) : string :=
  match op with
  | OpVersion => build_cmd_str "version" ArgsNone
  | OpDigitalWrite pin val =>
      build_cmd_str "dw"
        (ArgsTuple [PInt (if py_eq val (PStr "LOW") then (- pin)%Z else pin)])
  | OpAnalogWrite pin val =>
      build_cmd_str "aw"
        (ArgsTuple [pin; PInt (Z.max 0 (Z.min 255 val))])
  | OpAnalogRead pin => build_cmd_str "ar" (ArgsTuple [pin])
  | OpDigitalRead pin => build_cmd_str "dr" (ArgsTuple [pin])
  | OpPinMode pin val =>
      build_cmd_str "pm"
        (ArgsTuple [PInt (if py_eq val (PStr "INPUT") then (- pin)%Z else pin)])
  | OpPinModePullUp pin => build_cmd_str "pp" (ArgsTuple [pin])
  | OpI2Csetup addr => build_cmd_str "ac" (ArgsTuple [addr])
  | OpI2Cwritehigh addr => build_cmd_str "hc" (ArgsTuple [addr])
  | OpI2Cwritelow addr => build_cmd_str "ic" (ArgsTuple [addr])
  | OpI2CUnstick => "@un%$!"
  | OpConfI2C a r h l => build_cmd_str "cic" (ArgsTuple [a; r; h; l])
  | OpWriteI2C a r d => build_cmd_str "wic" (ArgsTuple [a; r; d])
  | OpGetRegRaw a r => build_cmd_str "grr" (ArgsTuple [a; r])
  | OpSoftReset => "@res%$!"
  end.

(** The method reads a reply line. *)
Definition reads_reply (op : operation) : bool :=
  match op with
  | OpVersion | OpAnalogRead _ | OpDigitalRead _ | OpI2CUnstick
  | OpGetRegRaw _ _ => true
  | _ => false
  end.

(** The method clears the input buffer before it writes. *)
Definition clears_input (op : operation) : bool :=
  match op with
  | OpVersion | OpDigitalWrite _ _ | OpAnalogWrite _ _ => false
  | _ => true
  end.

(** The calls the method makes on a ready connection. *)
Definition calls_of (op : operation) : list call :=
  ((if clears_input op then [CFlushInput] else [])
   ++ [CWrite (frame_of op); CFlush]
   ++ (if reads_reply op then [CReadline] else []))%list.

(** The line the next [readline] returns. *)
Definition next_line (s : Serial) : string :=
  match inbuf s with
  | l :: _ => l
  | [] => wire s (arrived s)
  end.

(** What an operation leaves alone: the settings of the connection, its
    being open, and the lines still to come. *)
Definition same_connection (s s' : Serial) : Prop :=
  port s' = port s
  /\ baudrate s' = baudrate s
  /\ timeout s' = timeout s
  /\ is_open s' = is_open s
  /\ write_fails s' = write_fails s
  /\ wire s' = wire s.

(** A Windows host whose registry has no serial device map. *)
Definition bare_windows_host : Host :=
  mkHost "Windows" None []
    (fun _ => [])
    (fun p => if String.eqb p "COM3" then Some (board "version") else None).

(** A Linux host with a compatible board on [ttyUSB1] and another on
    [ttyACM0]. *)
Definition two_board_host : Host :=
  mkHost "Linux" None []
    (fun pattern =>
       if String.eqb pattern "/dev/ttyUSB*" then ["/dev/ttyUSB0"; "/dev/ttyUSB1"]
       else if String.eqb pattern "/dev/ttyACM*" then ["/dev/ttyACM0"]
       else [])
    (fun p =>
       if String.eqb p "/dev/ttyUSB1" then Some (board "version")
       else if String.eqb p "/dev/ttyACM0" then Some (board "version")
       else None).

(** A Linux host with two compatible boards, of which the one on
    [ttyUSB0] has sent a greeting before the handshake starts. *)
Definition greeting_board_host : Host :=
  mkHost "Linux" None []
    (fun pattern =>
       if String.eqb pattern "/dev/ttyUSB*" then ["/dev/ttyUSB0"]
       else if String.eqb pattern "/dev/ttyACM*" then ["/dev/ttyACM0"]
       else [])
    (fun p =>
       if String.eqb p "/dev/ttyUSB0"
       then Some (mkDevice ["ready" ++ CRLF]
                           (lines_of ["version" ++ CRLF]) false)
       else if String.eqb p "/dev/ttyACM0" then Some (board "version")
       else None).

(** * Properties *)

(** ** The command framer *)

Lemma py_join_percent_separated (a : string) (l : list string) :
  py_join "%" (a :: l) = percent_separated a l.
Proof.
  revert a. induction l as [| b l IH]; intros a.
  - reflexivity.
  - change (py_join "%" (a :: b :: l)) with (a ++ "%" ++ py_join "%" (b :: l)).
    rewrite IH. reflexivity.
Qed.

Lemma py_join_argument_segment (l : list string) :
  py_join "%" l = argument_segment l.
Proof.
  destruct l as [| a l]; [reflexivity | apply py_join_percent_separated].
Qed.

(** A falsy [args] has nothing to iterate over. *)
Lemma py_truthy_false_iter (args : pyargs) :
  py_truthy args = false -> py_iter args = [].
Proof.
  destruct args as [| [| v l] | [| c s]]; simpl; intros H;
    try reflexivity; discriminate H.
Qed.

Lemma build_cmd_str_segment (cmd : string) (args : pyargs) :
  build_cmd_str cmd args
  = "@" ++ cmd ++ "%" ++ argument_segment (arg_strings args) ++ "$!".
Proof.
  unfold build_cmd_str, arg_strings.
  destruct (py_truthy args) eqn:T.
  - rewrite py_join_argument_segment. reflexivity.
  - rewrite (py_truthy_false_iter args T). reflexivity.
Qed.

(** C3: for every command name and argument sequence the frame is
    [@], the name, [%], the argument segment and [$!], where the segment is
    empty for empty or absent arguments and otherwise the string
    representations joined with [%]; the frame of [version] without
    arguments is [@version%$!]. *)
Theorem build_cmd_str_frame :
  (forall cmd args,
      build_cmd_str cmd args
      = "@" ++ cmd ++ "%" ++ argument_segment (arg_strings args) ++ "$!")
  /\ (forall cmd, build_cmd_str cmd ArgsNone = "@" ++ cmd ++ "%" ++ "$!")
  /\ (forall cmd, build_cmd_str cmd (ArgsTuple []) = "@" ++ cmd ++ "%" ++ "$!")
  /\ build_cmd_str "version" ArgsNone = "@version%$!".
Proof.
  split; [exact build_cmd_str_segment |].
  repeat split; reflexivity.
Qed.

(** ** The inverse parse *)

Lemma append_assoc (a b c : string) : (a ++ b) ++ c = a ++ b ++ c.
Proof.
  induction a as [| x a IH]; simpl; [reflexivity | now rewrite IH].
Qed.

Lemma length_append (a b : string) :
  String.length (a ++ b) = String.length a + String.length b.
Proof.
  induction a as [| x a IH]; simpl; [reflexivity | now rewrite IH].
Qed.

Lemma drop_terminator_app (body : string) :
  drop_terminator (body ++ "$!") = Some body.
Proof.
  induction body as [| c body IH].
  - reflexivity.
  - cbn [append]. cbn [drop_terminator]. fold drop_terminator.
    destruct (String.eqb_spec (String c (body ++ "$!")) "$!") as [E | _].
    + apply (f_equal String.length) in E. cbn [String.length] in E.
      rewrite length_append in E. cbn [String.length] in E. lia.
    + rewrite IH. reflexivity.
Qed.

Lemma split_on_not_nil (sep : ascii) (s : string) : split_on sep s <> [].
Proof.
  destruct s as [| c s]; simpl; [discriminate |].
  destruct (Ascii.eqb c sep); [discriminate |].
  destruct (split_on sep s); discriminate.
Qed.

Lemma split_on_clean (sep : ascii) (s : string) :
  contains sep s = false -> split_on sep s = [s].
Proof.
  induction s as [| c s IH]; simpl; intros H; [reflexivity |].
  apply orb_false_iff in H. destruct H as [Hc Hs].
  rewrite Hc, (IH Hs). reflexivity.
Qed.

Lemma split_on_app (sep : ascii) (a r : string) :
  contains sep a = false ->
  split_on sep (a ++ String sep r) = a :: split_on sep r.
Proof.
  induction a as [| c a IH]; simpl; intros H.
  - rewrite Ascii.eqb_refl. reflexivity.
  - apply orb_false_iff in H. destruct H as [Hc Ha].
    rewrite Hc, (IH Ha). reflexivity.
Qed.

Lemma split_on_join (l : list string) :
  l <> [] ->
  Forall (fun s => contains "%" s = false) l ->
  split_on "%" (py_join "%" l) = l.
Proof.
  induction l as [| a l IH]; intros Hne Hall; [congruence |].
  inversion Hall as [| ? ? Ha Hl]; subst.
  destruct l as [| b l].
  - simpl. apply split_on_clean, Ha.
  - change (py_join "%" (a :: b :: l)) with (a ++ String "%" (py_join "%" (b :: l))).
    rewrite (split_on_app "%" a _ Ha), IH; [reflexivity | discriminate | exact Hl].
Qed.

(** The frame is cut back into the name and the pieces of the segment. *)
Lemma parse_frame_pieces (name seg : string) :
  contains "%" name = false ->
  parse_frame ("@" ++ name ++ "%" ++ seg ++ "$!")
  = match split_on "%" seg with
    | [""] => Some (name, [])
    | pieces => Some (name, pieces)
    end.
Proof.
  intros Hname.
  change ("@" ++ name ++ "%" ++ seg ++ "$!")
    with (String "@" (name ++ "%" ++ seg ++ "$!")).
  cbn [parse_frame].
  replace (name ++ "%" ++ seg ++ "$!") with ((name ++ "%" ++ seg) ++ "$!")
    by (rewrite !append_assoc; reflexivity).
  rewrite drop_terminator_app.
  change (name ++ "%" ++ seg) with (name ++ String "%" seg).
  rewrite (split_on_app "%" name seg Hname).
  destruct (split_on "%" seg) as [| [| c s] [| q qs]]; reflexivity.
Qed.

(** The decimal notation of an integer has no [%] in it. *)
Lemma string_of_uint_no_percent (d : Decimal.uint) :
  contains "%" (NilEmpty.string_of_uint d) = false.
Proof.
  induction d; simpl; auto.
Qed.

Lemma py_str_int_no_percent (z : Z) : contains "%" (py_str (PInt z)) = false.
Proof.
  unfold py_str, NilZero.string_of_int, NilZero.string_of_uint.
  destruct (Z.to_int z) as [d | d]; destruct d; try reflexivity;
    simpl; apply string_of_uint_no_percent.
Qed.




(** No parser at all inverts the framer on every input: an empty argument
    list and a single empty argument have the same frame. *)
Lemma build_cmd_str_no_inverse (parse : string -> option (string * list string)) :
  ~ (forall name args,
       parse (build_cmd_str name args) = Some (name, arg_strings args)).
Proof.
  intros H.
  pose proof (H "un" ArgsNone) as H0.
  pose proof (H "un" (ArgsTuple [PStr ""])) as H1.
  change (build_cmd_str "un" (ArgsTuple [PStr ""]))
    with (build_cmd_str "un" ArgsNone) in H1.
  rewrite H0 in H1. discriminate H1.
Qed.

(** Integer arguments are always recovered. *)
Lemma build_cmd_str_parse_ints (name : string) (pins : list Z) :
  contains "%" name = false ->
  parse_frame (build_cmd_str name (ArgsTuple (map PInt pins)))
  = Some (name, arg_strings (ArgsTuple (map PInt pins))).
Proof.
  intros Hname.
  assert (Hall : Forall (fun s => contains "%" s = false)
                        (arg_strings (ArgsTuple (map PInt pins)))).
  { unfold arg_strings. cbn [py_iter]. rewrite map_map.
    apply Forall_forall. intros s Hs. apply in_map_iff in Hs.
    destruct Hs as [z [<- _]]. apply py_str_int_no_percent. }
  rewrite build_cmd_str_segment, (parse_frame_pieces _ _ Hname).
  destruct (arg_strings (ArgsTuple (map PInt pins))) as [| a l] eqn:E.
  - reflexivity.
  - cbn [argument_segment]. rewrite <- py_join_percent_separated.
    rewrite (split_on_join (a :: l)); [| discriminate | exact Hall].
    destruct a as [| c a]; [| reflexivity].
    exfalso. destruct pins as [| z pins]; [discriminate E |].
    unfold arg_strings in E. cbn [py_iter map] in E.
    injection E as E _. revert E.
    unfold py_str, NilZero.string_of_int, NilZero.string_of_uint.
    destruct (Z.to_int z) as [d | d]; destruct d; discriminate.
Qed.

(** ** Replies and the handshake on small inputs *)

Example replace_crlf_reply : replace_crlf ("512" ++ CRLF) = "512".
Proof. reflexivity. Qed.

(** Every CR LF pair goes, also inside the line; a CR or an LF on its own
    stays. *)
Example replace_crlf_inside :
  replace_crlf ("ver" ++ CRLF ++ "sion" ++ CRLF) = "version"
  /\ replace_crlf (String "010" "") = String "010" ""
  /\ replace_crlf (String "013" (String "013" (String "010" "")))
     = String "013" "".
Proof. repeat split. Qed.

(** The handshake on a board that answers, on a closed connection and on
    a device that rejects writes. *)
Example get_version_replies :
  fst (get_version (sr (bench [] ["version" ++ CRLF]))) = Ok (Some "version")
  /\ fst (get_version (set_is_open false (sr (bench [] ["version" ++ CRLF]))))
     = Ok None
  /\ fst (get_version
            (mkSerial "/dev/ttyUSB0" 9600 3 true true [] (lines_of []) 0 []))
     = Ok None.
Proof. repeat split. Qed.

(** ** Requests on an open session *)

(** Take a ready session apart so that a request on it computes. *)
Ltac ready_session self H :=
  destruct self as [[p b t o w i wr a c]];
  unfold ready in H; cbn [sr is_open write_fails] in H;
  apply andb_true_iff in H; destruct H as [-> H];
  apply negb_true_iff in H; subst w.

Lemma request_ready (frame : string) (self : Arduino) :
  ready self = true ->
  request frame self = (Ok tt, mkArduino (after_request frame (sr self))).
Proof.
  intros H. ready_session self H.
  cbv [request bind self_sr sr_flushInput sr_write sr_flush log_call set_inbuf
       after_request request_calls sr port baudrate timeout is_open
       write_fails inbuf wire arrived calls andb negb].
  rewrite <- !app_assoc. reflexivity.
Qed.

Lemma send_ready (frame : string) (self : Arduino) :
  ready self = true ->
  (self_sr (sr_write frame) ;; self_sr sr_flush) self
  = (Ok tt, mkArduino (after_send frame (sr self))).
Proof.
  intros H. ready_session self H.
  cbv [bind self_sr sr_write sr_flush log_call after_send sr port baudrate
       timeout is_open write_fails inbuf wire arrived calls andb negb].
  rewrite <- !app_assoc. reflexivity.
Qed.

(** Sequencing is associative on every state. *)
Lemma bind_assoc {S A B C} (c : M S A) (k : A -> M S B) (k' : B -> M S C) s :
  bind (bind c k) k' s = bind c (fun a => bind (k a) k') s.
Proof.
  unfold bind. destruct (c s) as [[a | e] s']; reflexivity.
Qed.

(** Thirteen operations open with the clearing request: nine are that
    request and nothing else, four go on to read one line. *)
Lemma operations_clearing_input (self : Arduino) :
  (forall pin val,
      pinMode pin val self
      = request (build_cmd_str "pm"
          (ArgsTuple [PInt (if py_eq val (PStr "INPUT") then (- pin)%Z else pin)]))
          self)
  /\ (forall pin,
        pinModePullUp pin self
        = request (build_cmd_str "pp" (ArgsTuple [pin])) self)
  /\ (forall addr,
        I2Csetup addr self = request (build_cmd_str "ac" (ArgsTuple [addr])) self)
  /\ (forall addr,
        I2Cwritehigh addr self
        = request (build_cmd_str "hc" (ArgsTuple [addr])) self)
  /\ (forall addr,
        I2Cwritelow addr self
        = request (build_cmd_str "ic" (ArgsTuple [addr])) self)
  /\ (forall a r h l,
        ConfI2C a r h l self
        = request (build_cmd_str "cic" (ArgsTuple [a; r; h; l])) self)
  /\ (forall a r d,
        WriteI2C a r d self
        = request (build_cmd_str "wic" (ArgsTuple [a; r; d])) self)
  /\ SoftReset self = request "@res%$!" self
  /\ I2CScan_request self = request "@ick%$!" self
  /\ (forall pin,
        digitalRead pin self
        = (request (build_cmd_str "dr" (ArgsTuple [pin])) ;;
           line <- self_sr sr_readline ;; ret (replace_crlf line)) self)
  /\ (forall py_int pin,
        analogRead py_int pin self
        = (request (build_cmd_str "ar" (ArgsTuple [pin])) ;;
           line <- self_sr sr_readline ;;
           match py_int (replace_crlf line) with
           | Some n => ret n
           | None => raise (ValueError "invalid literal for int()")
           end) self)
  /\ I2CUnstick self
     = (request "@un%$!" ;;
        line <- self_sr sr_readline ;; ret (replace_crlf line)) self
  /\ (forall a r,
        getRegRaw a r self
        = (request (build_cmd_str "grr" (ArgsTuple [a; r])) ;;
           line <- self_sr sr_readline ;; ret (replace_crlf line)) self).
Proof.
  repeat split; intros; try reflexivity;
    unfold digitalRead, analogRead, I2CUnstick, getRegRaw, request, bind;
    destruct (self_sr sr_flushInput self) as [[? | ?] s1]; try reflexivity;
    destruct (self_sr (sr_write _) s1) as [[? | ?] s2]; try reflexivity;
    destruct (self_sr sr_flush s2) as [[? | ?] s3]; reflexivity.
Qed.

Lemma digitalWrite_ready (self : Arduino) (pin : Z) (val : pyval) :
  ready self = true ->
  digitalWrite pin val self
  = (Ok tt,
     mkArduino
       (after_send
          (build_cmd_str "dw"
             (ArgsTuple [PInt (if py_eq val (PStr "LOW") then (- pin)%Z else pin)]))
          (sr self))).
Proof.
  intros H. unfold digitalWrite. apply send_ready, H.
Qed.

Lemma analogWrite_ready (self : Arduino) (pin : pyval) (val : Z) :
  ready self = true ->
  analogWrite pin val self
  = (Ok tt,
     mkArduino
       (after_send
          (build_cmd_str "aw"
             (ArgsTuple [pin; PInt (if (val >? 255)%Z then 255%Z
                                    else if (val <? 0)%Z then 0%Z else val)]))
          (sr self))).
Proof.
  intros H. unfold analogWrite. apply send_ready, H.
Qed.

(** A write and a flush never touch the unread input. *)
Lemma send_keeps_inbuf (frame : string) (self : Arduino) :
  inbuf (sr (snd ((self_sr (sr_write frame) ;; self_sr sr_flush) self)))
  = inbuf (sr self).
Proof.
  destruct self as [[p b t o w i wr a c]]. destruct o, w; reflexivity.
Qed.

(** C5, where the code departs from it: [digitalWrite] and [analogWrite]
    write and flush without clearing the input buffer first.  On every
    session they leave the unread input in place; on a session with a
    stale line their calls are the write and the flush alone, while
    [pinMode] on the same session clears the input before it writes. *)
Theorem digitalWrite_analogWrite_skip_flushInput :
  (forall self pin val,
      inbuf (sr (snd (digitalWrite pin val self))) = inbuf (sr self))
  /\ (forall self pin val,
        inbuf (sr (snd (analogWrite pin val self))) = inbuf (sr self))
  /\ (let self := bench ["stale" ++ CRLF] [] in
      let after := snd (digitalWrite 13 (PStr "HIGH") self) in
      calls (sr after) = [CWrite "@dw%13$!"; CFlush]
      /\ inbuf (sr after) = ["stale" ++ CRLF])
  /\ (let self := bench ["stale" ++ CRLF] [] in
      let after := snd (analogWrite (PInt 9) 128 self) in
      calls (sr after) = [CWrite "@aw%9%128$!"; CFlush]
      /\ inbuf (sr after) = ["stale" ++ CRLF])
  /\ (let self := bench ["stale" ++ CRLF] [] in
      let after := snd (pinMode 13 (PStr "OUTPUT") self) in
      calls (sr after) = [CFlushInput; CWrite "@pm%13$!"; CFlush]
      /\ inbuf (sr after) = []).
Proof.
  split; [intros; apply send_keeps_inbuf |].
  split; [intros; apply send_keeps_inbuf |].
  repeat split.
Qed.

(** The decimal notation of a negated positive integer is a minus sign
    before the notation of the integer. *)
Lemma py_str_opp (p : Z) :
  (0 < p)%Z -> py_str (PInt (- p)) = "-" ++ py_str (PInt p).
Proof.
  intros H. destruct p as [| q | q]; try lia. reflexivity.
Qed.

(** C7: on a ready session and a pin [p > 0], [digitalWrite] with level
    LOW writes the [dw] frame whose pin argument is [-p], that is a minus
    sign and the digits of [p], and with level HIGH the frame whose pin
    argument is [p] unchanged. *)
Theorem digitalWrite_pin_sign (self : Arduino) (p : Z) :
  ready self = true ->
  (0 < p)%Z ->
  digitalWrite p (PStr "LOW") self
  = (Ok tt,
     mkArduino
       (after_send (build_cmd_str "dw" (ArgsTuple [PInt (- p)])) (sr self)))
  /\ build_cmd_str "dw" (ArgsTuple [PInt (- p)])
     = "@dw%-" ++ py_str (PInt p) ++ "$!"
  /\ digitalWrite p (PStr "HIGH") self
     = (Ok tt,
        mkArduino
          (after_send (build_cmd_str "dw" (ArgsTuple [PInt p])) (sr self)))
  /\ build_cmd_str "dw" (ArgsTuple [PInt p])
     = "@dw%" ++ py_str (PInt p) ++ "$!".
Proof.
  intros Hready Hp. repeat split.
  - apply (digitalWrite_ready self p (PStr "LOW") Hready).
  - unfold build_cmd_str. cbn [py_truthy py_iter map py_join String.concat].
    rewrite (py_str_opp p Hp). reflexivity.
  - apply (digitalWrite_ready self p (PStr "HIGH") Hready).
Qed.

Lemma digitalWrite_pin_sign_witness :
  calls (sr (snd (digitalWrite 13 (PStr "LOW") (bench [] []))))
  = [CWrite "@dw%-13$!"; CFlush]
  /\ calls (sr (snd (digitalWrite 13 (PStr "HIGH") (bench [] []))))
     = [CWrite "@dw%13$!"; CFlush].
Proof.
  destruct (digitalWrite_pin_sign (bench [] []) 13 eq_refl eq_refl)
    as [Hlow [_ [Hhigh _]]].
  rewrite Hlow, Hhigh. split; reflexivity.
Defined.

(** C8: on a ready session [analogWrite] writes the [aw] frame of the pin
    and a duty value in [0, 255]: 255 when [val] is greater than 255, 0
    when [val] is less than 0, and [val] itself when it is already in
    range. *)
Theorem analogWrite_clamps (self : Arduino) (pin : pyval) (val : Z) :
  ready self = true ->
  exists duty : Z,
    analogWrite pin val self
    = (Ok tt,
       mkArduino
         (after_send (build_cmd_str "aw" (ArgsTuple [pin; PInt duty]))
                     (sr self)))
    /\ (0 <= duty <= 255)%Z
    /\ ((255 < val)%Z -> duty = 255%Z)
    /\ ((val < 0)%Z -> duty = 0%Z)
    /\ ((0 <= val <= 255)%Z -> duty = val).
Proof.
  intros Hready.
  exists (if (val >? 255)%Z then 255%Z else if (val <? 0)%Z then 0%Z else val).
  split; [apply analogWrite_ready, Hready |].
  destruct (Z.gtb_spec val 255); destruct (Z.ltb_spec val 0); lia.
Qed.

Lemma analogWrite_clamps_witness :
  calls (sr (snd (analogWrite (PInt 9) 300 (bench [] []))))
  = [CWrite "@aw%9%255$!"; CFlush]
  /\ calls (sr (snd (analogWrite (PInt 9) (-5) (bench [] []))))
     = [CWrite "@aw%9%0$!"; CFlush]
  /\ calls (sr (snd (analogWrite (PInt 9) 128 (bench [] []))))
     = [CWrite "@aw%9%128$!"; CFlush].
Proof.
  destruct (analogWrite_clamps (bench [] []) (PInt 9) 300 eq_refl)
    as [d1 [E1 [_ [H1 _]]]].
  destruct (analogWrite_clamps (bench [] []) (PInt 9) (-5) eq_refl)
    as [d2 [E2 [_ [_ [H2 _]]]]].
  destruct (analogWrite_clamps (bench [] []) (PInt 9) 128 eq_refl)
    as [d3 [E3 [_ [_ [_ H3]]]]].
  rewrite E1, E2, E3, (H1 eq_refl), (H2 eq_refl), (H3 ltac:(lia)).
  repeat split.
Defined.

(** ** Closing a session *)

Lemma physical_closes_app (l l' : list call) :
  physical_closes (l ++ l') = physical_closes l + physical_closes l'.
Proof.
  unfold physical_closes. rewrite filter_app, length_app. reflexivity.
Qed.

(** C9: [close] flushes and physically closes only when the connection
    reports open; it never raises, and a second [close] right after the
    first does not raise either, makes no call on the connection and so
    attempts no second physical close. *)
Theorem close_idempotent (self : Arduino) :
  let once := close self in
  let twice := close (snd once) in
  fst once = Ok tt
  /\ fst twice = Ok tt
  /\ snd twice = snd once
  /\ is_open (sr (snd once)) = false
  /\ calls (sr (snd once))
     = (if is_open (sr self) then calls (sr self) ++ [CFlush; CClose]
        else calls (sr self))%list
  /\ physical_closes (calls (sr (snd twice)))
     = physical_closes (calls (sr self))
       + (if is_open (sr self) then 1 else 0).
Proof.
  destruct self as [[p b t o w i wr a c]]. destruct o.
  - cbn -[physical_closes]. rewrite <- app_assoc. repeat split.
    rewrite physical_closes_app. reflexivity.
  - cbn -[physical_closes]. repeat split. lia.
Qed.

(** ** Discovery *)

(** On a freshly opened candidate the handshake returns, leaves the
    connection open, and mismatches exactly when the candidate does not
    answer as a compatible board. *)
Lemma get_version_fresh (h : Host) (p : string) (baud timeout : Z) (d : Device) :
  attached h p = Some d ->
  exists s0 v s,
    serial_Serial h p baud timeout = Ok s0
    /\ get_version s0 = (Ok v, s)
    /\ is_open s = true
    /\ port s = p
    /\ baudrate s = baud
    /\ version_mismatch v = negb (answers_handshake h p).
Proof.
  intros Hd. unfold serial_Serial, answers_handshake. rewrite Hd.
  destruct d as [bl rp rw]. cbn [rejects_writes boot_lines replies first_reply].
  destruct rw; [| destruct bl as [| l bl]];
    do 3 eexists; (split; [reflexivity |]); (split; [reflexivity |]);
    cbn; repeat split.
Qed.

(** The loop goes past every candidate that does not answer, and leaves
    each one it opened closed before it turns to the next. *)
Lemma find_port_loop_rejects (h : Host) (baud timeout : Z)
    (l1 rest : list string) (past : list Probe) :
  Forall (fun q => answers_handshake h q = false) l1 ->
  exists probes,
    find_port_loop h baud timeout (l1 ++ rest) past
    = find_port_loop h baud timeout rest (past ++ probes)
    /\ map probe_port probes = l1
    /\ Forall (fun pr => probe_closed pr = true) probes.
Proof.
  intros Hall. revert past.
  induction Hall as [| q l1 Hq _ IH]; intros past.
  - exists []. rewrite app_nil_r. repeat split. constructor.
  - cbn [app find_port_loop].
    destruct (attached h q) as [d |] eqn:Hd.
    + destruct (get_version_fresh h q baud timeout d Hd)
        as [s0 [v [s [E0 [Ev [Hopen [_ [_ Hv]]]]]]]].
      rewrite E0, Ev, Hv, Hq. cbn [negb].
      destruct (IH (past ++ [mkProbe q (Some (snd (sr_close s)))])%list)
        as [probes [E [Hports Hclosed]]].
      exists (mkProbe q (Some (snd (sr_close s))) :: probes).
      rewrite E, <- app_assoc. repeat split.
      * cbn. now rewrite Hports.
      * constructor; [reflexivity | exact Hclosed].
    + unfold serial_Serial. rewrite Hd.
      destruct (IH (past ++ [mkProbe q None])%list) as [probes [E [Hports Hclosed]]].
      exists (mkProbe q None :: probes).
      rewrite E, <- app_assoc. repeat split.
      * cbn. now rewrite Hports.
      * constructor; [reflexivity | exact Hclosed].
Qed.

(** The loop stops at a candidate that answers: the connection is
    returned open, and the candidates after it are not looked at. *)
Lemma find_port_loop_accepts (h : Host) (baud timeout : Z)
    (p : string) (rest : list string) (past : list Probe) :
  answers_handshake h p = true ->
  exists s,
    find_port_loop h baud timeout (p :: rest) past = (Ok (Some s), past)
    /\ port s = p /\ baudrate s = baud /\ is_open s = true.
Proof.
  intros Hp. cbn [find_port_loop].
  destruct (attached h p) as [d |] eqn:Hd.
  - destruct (get_version_fresh h p baud timeout d Hd)
      as [s0 [v [s [E0 [Ev [Hopen [Hport [Hbaud Hv]]]]]]]].
    rewrite E0, Ev, Hv, Hp. cbn. exists s. repeat split; assumption.
  - unfold answers_handshake in Hp. rewrite Hd in Hp. discriminate Hp.
Qed.

(** C1: when the session is built with no port and no connection, and the
    candidates are [l1 ++ p :: l2] where no candidate of [l1] answers the
    handshake with [version] and [p] does, discovery binds the session to
    an open connection on [p]; it went past the candidates of [l1], in
    order, and nothing else; each of them that was opened had been closed
    by the time [p] was tried. *)
Theorem discovery_binds_first_match (h : Host) (baud timeout : Z)
    (port_arg : option string) (l1 : list string) (p : string)
    (l2 : list string) :
  port_given port_arg = None ->
  candidate_ports h = Ok (l1 ++ p :: l2)%list ->
  Forall (fun q => answers_handshake h q = false) l1 ->
  answers_handshake h p = true ->
  exists s probes,
    find_port h baud timeout = (Ok (Some s), probes)
    /\ Arduino_init h baud port_arg timeout None
       = (Ok (mkArduino (log_call CFlush s)), probes)
    /\ port s = p
    /\ is_open s = true
    /\ map probe_port probes = l1
    /\ Forall (fun pr => probe_closed pr = true) probes
    /\ find_port_loop h baud timeout (l1 ++ p :: l2) []
       = find_port_loop h baud timeout (p :: l2) probes.
Proof.
  intros Hport Hcand Hl1 Hp.
  destruct (find_port_loop_rejects h baud timeout l1 (p :: l2) [] Hl1)
    as [probes [Eloop [Hports Hclosed]]].
  cbn [app] in Eloop.
  destruct (find_port_loop_accepts h baud timeout p l2 probes Hp)
    as [s [Es [Hsp [_ Hopen]]]].
  assert (Efind : find_port h baud timeout = (Ok (Some s), probes)).
  { unfold find_port. rewrite Hcand, Eloop. exact Es. }
  exists s, probes. repeat split; try assumption.
  unfold Arduino_init. rewrite Hport, Efind.
  unfold sr_flush. cbn [log_call is_open]. rewrite Hopen. reflexivity.
Qed.

Lemma discovery_binds_first_match_witness :
  exists s probes,
    find_port (three_port_host "version") 9600 3 = (Ok (Some s), probes)
    /\ Arduino_init (three_port_host "version") 9600 None 3 None
       = (Ok (mkArduino (log_call CFlush s)), probes)
    /\ port s = "/dev/ttyACM0"
    /\ is_open s = true
    /\ map probe_port probes = ["/dev/ttyUSB0"; "/dev/ttyUSB1"]
    /\ Forall (fun pr => probe_closed pr = true) probes
    /\ find_port_loop (three_port_host "version") 9600 3
         (["/dev/ttyUSB0"; "/dev/ttyUSB1"] ++ "/dev/ttyACM0" :: []) []
       = find_port_loop (three_port_host "version") 9600 3
           ("/dev/ttyACM0" :: []) probes.
Proof.
  apply (discovery_binds_first_match (three_port_host "version") 9600 3 None
           ["/dev/ttyUSB0"; "/dev/ttyUSB1"] "/dev/ttyACM0" []).
  - reflexivity.
  - reflexivity.
  - repeat constructor.
  - reflexivity.
Defined.

(** C2: when the session is built with no port and no connection and no
    candidate answers the handshake, the constructor raises
    [ValueError("Could not find port.")] instead of returning a session;
    discovery went past every candidate, and each one it opened is
    closed. *)
Theorem discovery_fails_closed (h : Host) (baud timeout : Z)
    (port_arg : option string) (ports : list string) :
  port_given port_arg = None ->
  candidate_ports h = Ok ports ->
  Forall (fun q => answers_handshake h q = false) ports ->
  exists probes,
    find_port h baud timeout = (Ok None, probes)
    /\ Arduino_init h baud port_arg timeout None
       = (Raise (ValueError "Could not find port."), probes)
    /\ map probe_port probes = ports
    /\ Forall (fun pr => probe_closed pr = true) probes.
Proof.
  intros Hport Hcand Hall.
  destruct (find_port_loop_rejects h baud timeout ports [] [] Hall)
    as [probes [Eloop [Hports Hclosed]]].
  rewrite app_nil_r in Eloop. cbn [app find_port_loop] in Eloop.
  assert (Efind : find_port h baud timeout = (Ok None, probes)).
  { unfold find_port. rewrite Hcand. exact Eloop. }
  exists probes. repeat split; try assumption.
  unfold Arduino_init. rewrite Hport, Efind. reflexivity.
Qed.

Lemma discovery_fails_closed_witness :
  exists probes,
    find_port (three_port_host "noise") 9600 3 = (Ok None, probes)
    /\ Arduino_init (three_port_host "noise") 9600 None 3 None
       = (Raise (ValueError "Could not find port."), probes)
    /\ map probe_port probes
       = ["/dev/ttyUSB0"; "/dev/ttyUSB1"; "/dev/ttyACM0"]
    /\ Forall (fun pr => probe_closed pr = true) probes.
Proof.
  apply (discovery_fails_closed (three_port_host "noise") 9600 3 None
           ["/dev/ttyUSB0"; "/dev/ttyUSB1"; "/dev/ttyACM0"]).
  - reflexivity.
  - reflexivity.
  - repeat constructor.
Defined.

(** The three-candidate scenario, computed: the first port fails to open,
    the second answers [garbage] and is left closed, the third answers
    [version] and is bound. *)
Example discovery_three_ports :
  match Arduino_init (three_port_host "version") 9600 None 3 None with
  | (Ok self, [first; second]) =>
      port (sr self) = "/dev/ttyACM0"
      /\ is_open (sr self) = true
      /\ first = mkProbe "/dev/ttyUSB0" None
      /\ probe_port second = "/dev/ttyUSB1"
      /\ option_map is_open (probe_conn second) = Some false
      /\ option_map calls (probe_conn second)
         = Some [CWrite "@version%$!"; CFlush; CReadline; CClose]
  | _ => False
  end.
Proof.
  cbn. repeat split.
Qed.

(** ** The scan loop *)

Lemma stripped_lines_succ (s : Serial) (n : nat) :
  stripped_lines s (S n)
  = (stripped_lines s n ++ [stripped_line s n])%list.
Proof.
  unfold stripped_lines. rewrite seq_S, map_app. reflexivity.
Qed.

Lemma reads_on_refl (self : Arduino) : reading self -> reads_on 0 self self.
Proof.
  intros H. unfold reads_on. rewrite Nat.add_0_r, app_nil_r. auto.
Qed.

(** One pass through the body on a reading session takes the next line of
    the wire, and appends it unless it is [done]. *)
Lemma I2CScan_body_reads (st : scan_state) (self : Arduino) :
  reading self ->
  exists self',
    I2CScan_body st self
    = (Ok (PStr (stripped_line (sr self) 0),
           if String.eqb (stripped_line (sr self) 0) "done" then snd st
           else (snd st ++ [stripped_line (sr self) 0])%list),
       self')
    /\ reads_on 1 self self'.
Proof.
  destruct self as [[p b t o w i wr a c]], st as [x test].
  unfold reading, stripped_line. cbn [sr is_open inbuf wire arrived snd].
  rewrite Nat.add_0_r. intros [-> ->].
  eexists. split.
  - cbn. unfold py_ne, py_eq.
    destruct (String.eqb (replace_crlf (wr a)) "done"); reflexivity.
  - unfold reads_on, reading. cbn. rewrite Nat.add_1_r. auto.
Qed.

Lemma reads_on_step (k : nat) (first mid last : Arduino) :
  reads_on k first mid -> reads_on 1 mid last -> reads_on (S k) first last.
Proof.
  unfold reads_on. intros [_ [W1 [A1 C1]]] [R [W2 [A2 C2]]].
  repeat split; try apply R.
  - congruence.
  - rewrite A2, A1. lia.
  - rewrite C2, C1, <- app_assoc.
    change [CReadline] with (repeat CReadline 1).
    rewrite <- repeat_app, Nat.add_1_r. reflexivity.
Qed.

Lemma stripped_line_reads_on (k j : nat) (self later : Arduino) :
  reads_on k self later ->
  stripped_line (sr later) j = stripped_line (sr self) (k + j).
Proof.
  intros [_ [W [A _]]]. unfold stripped_line.
  rewrite W, A, Nat.add_assoc. reflexivity.
Qed.

(** [S k] passes are [k] passes and one more. *)
Lemma I2CScan_passes_snoc (k : nat) :
  forall st self,
    I2CScan_passes (S k) st self
    = match I2CScan_passes k st self with
      | Some (st', self') => I2CScan_passes 1 st' self'
      | None => None
      end.
Proof.
  induction k as [| k IH]; intros st self; [reflexivity |].
  change (I2CScan_passes (S (S k)) st self)
    with (if I2CScan_cond st then
            match I2CScan_body st self with
            | (Ok st', self') => I2CScan_passes (S k) st' self'
            | (Raise _, _) => None
            end
          else None).
  cbn [I2CScan_passes].
  destruct (I2CScan_cond st); [| reflexivity].
  destruct (I2CScan_body st self) as [[st' | e] self']; [| reflexivity].
  rewrite <- IH. reflexivity.
Qed.

(** The loop with fuel runs through the passes it has fuel for. *)
Lemma I2CScan_while_after_passes (k : nat) :
  forall st self st' self' fuel,
    I2CScan_passes k st self = Some (st', self') ->
    I2CScan_while (k + fuel) st self = I2CScan_while fuel st' self'.
Proof.
  induction k as [| k IH]; intros st self st' self' fuel H.
  - injection H as <- <-. reflexivity.
  - cbn [I2CScan_passes] in H. cbn [Nat.add I2CScan_while].
    destruct (I2CScan_cond st); [| discriminate H].
    destruct (I2CScan_body st self) as [[st1 | e] self1]; [| discriminate H].
    apply IH, H.
Qed.

(** While no line is [done], the loop keeps running and [test] grows by
    one line with every pass. *)
Lemma I2CScan_passes_running (k : nat) :
  forall (self : Arduino) (x : pyval),
    reading self ->
    I2CScan_cond (x, []) = true ->
    (forall j, j < k -> stripped_line (sr self) j <> "done") ->
    exists x' self',
      I2CScan_passes k (x, []) self
      = Some ((x', stripped_lines (sr self) k), self')
      /\ I2CScan_cond (x', stripped_lines (sr self) k) = true
      /\ reads_on k self self'.
Proof.
  induction k as [| k IH]; intros self x Hread Hcond Hnone.
  - exists x, self.
    split; [reflexivity | split; [exact Hcond | now apply reads_on_refl]].
  - destruct (IH self x Hread Hcond) as [x' [mid [Ek [Hc' Hmid]]]].
    { intros j Hj. apply Hnone. lia. }
    destruct (I2CScan_body_reads (x', stripped_lines (sr self) k) mid)
      as [last [Ebody Hlast]]; [apply Hmid |].
    rewrite (stripped_line_reads_on k 0 self mid Hmid), Nat.add_0_r in Ebody.
    assert (Hk : String.eqb (stripped_line (sr self) k) "done" = false).
    { apply String.eqb_neq, Hnone. lia. }
    rewrite Hk in Ebody. cbn [snd] in Ebody.
    rewrite <- stripped_lines_succ in Ebody.
    exists (PStr (stripped_line (sr self) k)), last.
    rewrite I2CScan_passes_snoc, Ek. cbn [I2CScan_passes].
    rewrite Hc', Ebody. split; [reflexivity | split].
    + unfold I2CScan_cond, py_ne, py_eq. cbn [fst]. now rewrite Hk.
    + apply (reads_on_step k self mid last Hmid Hlast).
Qed.

(** When line [n] is the first [done], the loop returns the [n] lines
    before it, after [n + 1] reads. *)
Lemma I2CScan_while_returns (n : nat) (self : Arduino) (x : pyval) :
  reading self ->
  I2CScan_cond (x, []) = true ->
  stripped_line (sr self) n = "done" ->
  (forall j, j < n -> stripped_line (sr self) j <> "done") ->
  exists self',
    reads_on (S n) self self'
    /\ forall fuel,
         n + 2 <= fuel ->
         I2CScan_while fuel (x, []) self
         = Some (Ok (stripped_lines (sr self) n), self').
Proof.
  intros Hread Hcond Hdone Hnone.
  destruct (I2CScan_passes_running n self x Hread Hcond Hnone)
    as [x' [mid [Ek [Hc' Hmid]]]].
  destruct (I2CScan_body_reads (x', stripped_lines (sr self) n) mid)
    as [last [Ebody Hlast]]; [apply Hmid |].
  rewrite (stripped_line_reads_on n 0 self mid Hmid), Nat.add_0_r, Hdone
    in Ebody.
  cbn [String.eqb Ascii.eqb Bool.eqb snd] in Ebody.
  exists last. split; [apply (reads_on_step n self mid last Hmid Hlast) |].
  intros fuel Hfuel.
  replace fuel with (n + S (S (fuel - n - 2))) by lia.
  rewrite (I2CScan_while_after_passes n _ _ _ _ _ Ek).
  cbn [I2CScan_while]. rewrite Hc', Ebody. reflexivity.
Qed.

(** While none of the first [m] lines is [done], the loop is still
    running after [m + 1] evaluations of its test. *)
Lemma I2CScan_while_runs_on (self : Arduino) (x : pyval) (m : nat) :
  reading self ->
  I2CScan_cond (x, []) = true ->
  (forall j, j < m -> stripped_line (sr self) j <> "done") ->
  I2CScan_while (S m) (x, []) self = None.
Proof.
  intros Hread Hcond Hnone.
  destruct (I2CScan_passes_running m self x Hread Hcond Hnone)
    as [x' [mid [Ek [Hc' Hmid]]]].
  destruct (I2CScan_body_reads (x', stripped_lines (sr self) m) mid)
    as [last [Ebody _]]; [apply Hmid |].
  replace (S m) with (m + 1) by lia.
  rewrite (I2CScan_while_after_passes m _ _ _ _ 1 Ek).
  cbn [I2CScan_while]. rewrite Hc', Ebody. reflexivity.
Qed.

(** Below any bound there is a first [done] line or none at all. *)
Lemma first_done_below (s : Serial) (m : nat) :
  (exists n, n < m /\ stripped_line s n = "done"
             /\ forall j, j < n -> stripped_line s j <> "done")
  \/ (forall j, j < m -> stripped_line s j <> "done").
Proof.
  induction m as [| m [[n [Hn [Hd Hb]]] | Hnone]].
  - right. intros j Hj. lia.
  - left. exists n. repeat split; [lia | exact Hd | exact Hb].
  - destruct (String.eqb_spec (stripped_line s m) "done") as [Hd | Hd].
    + left. exists m. repeat split; [lia | exact Hd | exact Hnone].
    + right. intros j Hj.
      destruct (Nat.eq_dec j m) as [-> | Hne]; [exact Hd | apply Hnone; lia].
Qed.

(** The request that opens the scan, on a ready session. *)
Lemma I2CScan_request_ready (self : Arduino) :
  ready self = true ->
  I2CScan_request self
  = (Ok tt, mkArduino (after_request "@ick%$!" (sr self)))
  /\ reading (mkArduino (after_request "@ick%$!" (sr self)))
  /\ forall j,
       stripped_line (after_request "@ick%$!" (sr self)) j
       = stripped_line (sr self) j.
Proof.
  intros H. split; [apply (request_ready "@ick%$!" self H) |].
  unfold ready in H. apply andb_true_iff in H. destruct H as [Ho _].
  split; [split; [exact Ho | reflexivity] | reflexivity].
Qed.

(** The scan on a ready session is the loop on the session the request
    leaves. *)
Lemma I2CScan_ready (fuel : nat) (self : Arduino) :
  ready self = true ->
  I2CScan fuel self
  = I2CScan_while fuel (PInt 0, [])
      (mkArduino (after_request "@ick%$!" (sr self))).
Proof.
  intros H. unfold I2CScan.
  destruct (I2CScan_request_ready self H) as [-> _]. reflexivity.
Qed.

Lemma stripped_lines_ext (s s' : Serial) (n : nat) :
  (forall j, stripped_line s' j = stripped_line s j) ->
  stripped_lines s' n = stripped_lines s n.
Proof.
  intros H. unfold stripped_lines. apply map_ext. exact H.
Qed.

(** On a ready session whose line [n] is the first [done], the scan
    returns the [n] lines before it once the fuel allows [n + 2]
    evaluations of the loop test; it has then made the three calls of the
    request and [n + 1] reads. *)
Lemma I2CScan_returns (self : Arduino) (n : nat) :
  ready self = true ->
  stripped_line (sr self) n = "done" ->
  (forall j, j < n -> stripped_line (sr self) j <> "done") ->
  exists self',
    (forall fuel,
        n + 2 <= fuel ->
        I2CScan fuel self = Some (Ok (stripped_lines (sr self) n), self'))
    /\ calls (sr self')
       = (calls (sr self) ++ request_calls "@ick%$!"
          ++ repeat CReadline (S n))%list.
Proof.
  intros Hready Hdone Hfirst.
  destruct (I2CScan_request_ready self Hready) as [_ [Hread Hsame]].
  destruct (I2CScan_while_returns n
              (mkArduino (after_request "@ick%$!" (sr self))) (PInt 0) Hread
              eq_refl)
    as [self' [Hon Hret]].
  - cbn [sr]. rewrite Hsame. exact Hdone.
  - intros j Hj. cbn [sr]. rewrite Hsame. apply Hfirst, Hj.
  - exists self'. split.
    + intros fuel Hfuel. rewrite (I2CScan_ready fuel self Hready).
      rewrite (Hret fuel Hfuel). cbn [sr].
      rewrite (stripped_lines_ext (sr self) _ n Hsame). reflexivity.
    + destruct Hon as [_ [_ [_ Hcalls]]]. rewrite Hcalls. cbn [sr calls after_request].
      rewrite <- app_assoc. reflexivity.
Qed.

(** On a ready session without a [done] line the scan never returns, and
    after [k] passes the list holds the first [k] lines. *)
Lemma I2CScan_never_returns (self : Arduino) :
  ready self = true ->
  (forall k, stripped_line (sr self) k <> "done") ->
  (forall fuel, I2CScan fuel self = None)
  /\ forall k, exists x self',
       I2CScan_passes k (PInt 0, [])
         (mkArduino (after_request "@ick%$!" (sr self)))
       = Some ((x, stripped_lines (sr self) k), self').
Proof.
  intros Hready Hnever.
  destruct (I2CScan_request_ready self Hready) as [_ [Hread Hsame]].
  split.
  - intros fuel. rewrite (I2CScan_ready fuel self Hready).
    destruct fuel as [| m]; [reflexivity |].
    apply I2CScan_while_runs_on; [exact Hread | reflexivity |].
    intros j _. cbn [sr]. rewrite Hsame. apply Hnever.
  - intros k.
    destruct (I2CScan_passes_running k
                (mkArduino (after_request "@ick%$!" (sr self))) (PInt 0)
                Hread eq_refl)
      as [x [self' [Ek _]]].
    + intros j _. cbn [sr]. rewrite Hsame. apply Hnever.
    + exists x, self'. rewrite Ek. cbn [sr].
      rewrite (stripped_lines_ext (sr self) _ k Hsame). reflexivity.
Qed.

(** C6: on a ready session [I2CScan] reads the lines one at a time, each
    without its CR LF, and when line [n] is the first that equals [done]
    it returns the [n] lines before it, the terminator left out, after
    the three calls of the request and [n + 1] calls of [readline]. *)
Theorem I2CScan_collects_until_done (self : Arduino) (n : nat) :
  ready self = true ->
  stripped_line (sr self) n = "done" ->
  (forall j, j < n -> stripped_line (sr self) j <> "done") ->
  exists self',
    (forall fuel,
        n + 2 <= fuel ->
        I2CScan fuel self = Some (Ok (stripped_lines (sr self) n), self'))
    /\ calls (sr self')
       = (calls (sr self) ++ request_calls "@ick%$!"
          ++ repeat CReadline (S n))%list.
Proof.
  intros Hready Hdone Hfirst.
  destruct (I2CScan_returns self n Hready Hdone Hfirst) as [self' [Hret Hcalls]].
  exists self'. split; [exact Hret | exact Hcalls].
Qed.

Lemma I2CScan_collects_until_done_witness :
  exists self',
    I2CScan 4 (bench [] ["addr1" ++ CRLF; "addr2" ++ CRLF; "done" ++ CRLF])
    = Some (Ok ["addr1"; "addr2"], self')
    /\ calls (sr self')
       = [CFlushInput; CWrite "@ick%$!"; CFlush;
          CReadline; CReadline; CReadline].
Proof.
  destruct (I2CScan_collects_until_done
              (bench [] ["addr1" ++ CRLF; "addr2" ++ CRLF; "done" ++ CRLF]) 2
              eq_refl eq_refl)
    as [self' [Hret Hcalls]].
  - intros j Hj. destruct j as [| [| j]]; [discriminate | discriminate | lia].
  - exists self'. split; [apply (Hret 4); lia | exact Hcalls].
Defined.

(** The scan scenario, computed, with a stale line in the input buffer
    that the request discards. *)
Example I2CScan_addr1_addr2 :
  option_map fst
    (I2CScan 4 (bench ["stale" ++ CRLF]
                      ["addr1" ++ CRLF; "addr2" ++ CRLF; "done" ++ CRLF]))
  = Some (Ok ["addr1"; "addr2"])
  /\ I2CScan 3 (bench ["stale" ++ CRLF]
                      ["addr1" ++ CRLF; "addr2" ++ CRLF; "done" ++ CRLF])
     = None.
Proof.
  split; reflexivity.
Qed.

(** C10: on a ready session [I2CScan] ends only if some line equals
    [done], and then with the lines before the first such line; when line
    [n] is the first [done] it does return them; and when no line ever
    equals [done] it never returns, while every pass through the loop
    appends the line it read, so that after [k] passes the list holds the
    first [k] lines. *)
Theorem I2CScan_terminates_only_on_done (self : Arduino) :
  ready self = true ->
  (forall fuel r self',
      I2CScan fuel self = Some (r, self') ->
      exists n,
        stripped_line (sr self) n = "done"
        /\ (forall j, j < n -> stripped_line (sr self) j <> "done")
        /\ r = Ok (stripped_lines (sr self) n))
  /\ (forall n,
        stripped_line (sr self) n = "done" ->
        (forall j, j < n -> stripped_line (sr self) j <> "done") ->
        exists self',
          forall fuel,
            n + 2 <= fuel ->
            I2CScan fuel self = Some (Ok (stripped_lines (sr self) n), self'))
  /\ ((forall k, stripped_line (sr self) k <> "done") ->
      (forall fuel, I2CScan fuel self = None)
      /\ forall k, exists x self',
           I2CScan_passes k (PInt 0, [])
             (mkArduino (after_request "@ick%$!" (sr self)))
           = Some ((x, stripped_lines (sr self) k), self')
           /\ length (stripped_lines (sr self) k) = k).
Proof.
  intros Hready. split; [| split].
  - intros fuel r self' H.
    destruct fuel as [| m].
    { rewrite (I2CScan_ready 0 self Hready) in H. discriminate H. }
    destruct (first_done_below (sr self) m) as [[n [Hn [Hd Hb]]] | Hnone].
    + exists n. split; [exact Hd | split; [exact Hb |]].
      destruct (I2CScan_returns self n Hready Hd Hb) as [self'' [Hret _]].
      rewrite (Hret (S m)) in H by lia. now injection H as <- _.
    + exfalso. rewrite (I2CScan_ready (S m) self Hready) in H.
      destruct (I2CScan_request_ready self Hready) as [_ [Hread Hsame]].
      rewrite I2CScan_while_runs_on in H; [discriminate H | exact Hread | reflexivity |].
      intros j Hj. cbn [sr]. rewrite Hsame. apply Hnone, Hj.
  - intros n Hd Hb.
    destruct (I2CScan_returns self n Hready Hd Hb) as [self' [Hret _]].
    exists self'. exact Hret.
  - intros Hnever.
    destruct (I2CScan_never_returns self Hready Hnever) as [Hnone Hpasses].
    split; [exact Hnone |].
    intros k. destruct (Hpasses k) as [x [self' E]].
    exists x, self'. split; [exact E |].
    unfold stripped_lines. now rewrite length_map, length_seq.
Qed.

Lemma I2CScan_terminates_only_on_done_witness :
  (forall fuel, I2CScan fuel (bench [] []) = None)
  /\ (forall k, exists x self',
        I2CScan_passes k (PInt 0, [])
          (mkArduino (after_request "@ick%$!" (sr (bench [] []))))
        = Some ((x, stripped_lines (sr (bench [] [])) k), self')
        /\ length (stripped_lines (sr (bench [] [])) k) = k).
Proof.
  destruct (I2CScan_terminates_only_on_done (bench [] []) eq_refl)
    as [_ [_ Hnever]].
  apply Hnever. intros k. unfold stripped_line. cbn.
  destruct k; discriminate.
Defined.

(** Three reads that time out leave three empty strings in the list, and
    the loop is still running. *)
Example I2CScan_timeouts :
  option_map fst
    (I2CScan_passes 3 (PInt 0, [])
       (mkArduino (after_request "@ick%$!" (sr (bench [] [])))))
  = Some (PStr "", [""; ""; ""]).
Proof.
  reflexivity.
Qed.

(** * Further properties *)

(** ** Discovery on any host *)

(** The handshake on a freshly opened candidate, with the state it leaves:
    the settings asked for, and the write, the flush and one read as the
    only calls when the candidate answers. *)
Lemma get_version_fresh_state (h : Host) (p : string) (baud tmo : Z)
    (d : Device) :
  attached h p = Some d ->
  exists s0 v s,
    serial_Serial h p baud tmo = Ok s0
    /\ get_version s0 = (Ok v, s)
    /\ version_mismatch v = negb (answers_handshake h p)
    /\ is_open s = true /\ port s = p /\ baudrate s = baud /\ timeout s = tmo
    /\ (answers_handshake h p = true ->
        calls s = [CWrite "@version%$!"; CFlush; CReadline]).
Proof.
  intros Hd. unfold serial_Serial, answers_handshake. rewrite Hd.
  destruct d as [bl rp rw]. cbn [rejects_writes boot_lines replies first_reply].
  destruct rw; [| destruct bl as [| l bl]];
    do 3 eexists; (split; [reflexivity |]); (split; [reflexivity |]);
    cbn; repeat split; intros; discriminate.
Qed.

(** The loop on any list of candidates: it returns, it has the rejected
    candidates closed, and what it returns is on the first candidate that
    answers. *)
Lemma find_port_loop_spec (h : Host) (baud tmo : Z) (ports : list string) :
  forall past, exists r probes,
    find_port_loop h baud tmo ports past = (Ok r, (past ++ probes)%list)
    /\ Forall (fun pr => probe_closed pr = true) probes
    /\ option_map port r = find (answers_handshake h) ports
    /\ (forall s, r = Some s ->
          is_open s = true /\ baudrate s = baud /\ timeout s = tmo
          /\ calls s = [CWrite "@version%$!"; CFlush; CReadline]).
Proof.
  induction ports as [| p ports IH]; intros past.
  - exists None, []. rewrite app_nil_r.
    split; [reflexivity | split; [constructor | split; [reflexivity |]]].
    intros s H. discriminate H.
  - cbn [find_port_loop find].
    destruct (attached h p) as [d |] eqn:Hd.
    + destruct (get_version_fresh_state h p baud tmo d Hd)
        as [s0 [v [s [E0 [Ev [Hv [Hopen [Hport [Hbaud [Htmo Hcalls]]]]]]]]]].
      rewrite E0, Ev, Hv.
      destruct (answers_handshake h p) eqn:Hp; cbn [negb].
      * exists (Some s), []. rewrite app_nil_r. cbn [Serial_truthy option_map].
        rewrite Hport.
        split; [reflexivity | split; [constructor | split; [reflexivity |]]].
        intros s' [= <-]. auto.
      * destruct (IH (past ++ [mkProbe p (Some (snd (sr_close s)))])%list)
          as [r [probes [E [Hclosed [Hfind Hs]]]]].
        exists r, (mkProbe p (Some (snd (sr_close s))) :: probes).
        rewrite E, <- app_assoc.
        split; [reflexivity | split; [| split; [exact Hfind | exact Hs]]].
        constructor; [reflexivity | exact Hclosed].
    + assert (Hp : answers_handshake h p = false)
        by (unfold answers_handshake; now rewrite Hd).
      unfold serial_Serial. rewrite Hd, Hp.
      destruct (IH (past ++ [mkProbe p None])%list)
        as [r [probes [E [Hclosed [Hfind Hs]]]]].
      exists r, (mkProbe p None :: probes).
      rewrite E, <- app_assoc.
      split; [reflexivity | split; [| split; [exact Hfind | exact Hs]]].
      constructor; [reflexivity | exact Hclosed].
Qed.




(** On a Windows host whose registry key for the serial devices cannot be
    opened, [find_port] raises the bare [Exception] of
    [enumerate_serial_ports] before any port is opened, and the
    constructor without a port lets it through instead of raising its
    own [ValueError]. *)
Theorem discovery_without_registry_key (h : Host) (baud tmo : Z)
    (port_arg : option string) :
  platform_system h = "Windows" ->
  winreg_SERIALCOMM h = None ->
  port_given port_arg = None ->
  find_port h baud tmo = (Raise Exception, [])
  /\ Arduino_init h baud port_arg tmo None = (Raise Exception, []).
Proof.
  intros Hsys Hreg Hport.
  assert (E : find_port h baud tmo = (Raise Exception, [])).
  { unfold find_port, candidate_ports, enumerate_serial_ports.
    rewrite Hsys, Hreg. reflexivity. }
  split; [exact E |].
  unfold Arduino_init. rewrite Hport, E. reflexivity.
Qed.

Lemma discovery_without_registry_key_witness :
  find_port bare_windows_host 9600 3 = (Raise Exception, [])
  /\ Arduino_init bare_windows_host 9600 None 3 None = (Raise Exception, []).
Proof.
  apply (discovery_without_registry_key bare_windows_host 9600 3 None);
    reflexivity.
Defined.

Lemma find_app_first {A} (f : A -> bool) (l l' : list A) (x : A) :
  In x l -> f x = true ->
  exists y, find f (l ++ l') = Some y /\ In y l /\ f y = true.
Proof.
  induction l as [| a l IH]; intros Hin Hx; [destruct Hin |].
  cbn [app find]. destruct (f a) eqn:Ha.
  - exists a. repeat split; [now left | exact Ha].
  - destruct Hin as [-> | Hin]; [congruence |].
    destruct (IH Hin Hx) as [y [E [Hy Hfy]]].
    exists y. repeat split; [exact E | now right | exact Hfy].
Qed.

(** On a host that is neither Windows nor Darwin the [ttyUSB] devices are
    tried before the [ttyACM] devices: as soon as one [ttyUSB] device
    answers the handshake, the connection returned is on a [ttyUSB] device
    that answers, whatever is attached to the [ttyACM] devices. *)
Theorem find_port_prefers_ttyUSB (h : Host) (baud tmo : Z) (p : string) :
  String.eqb (platform_system h) "Windows" = false ->
  String.eqb (platform_system h) "Darwin" = false ->
  In p (glob_glob h "/dev/ttyUSB*") ->
  answers_handshake h p = true ->
  exists s probes,
    find_port h baud tmo = (Ok (Some s), probes)
    /\ In (port s) (glob_glob h "/dev/ttyUSB*")
    /\ answers_handshake h (port s) = true
    /\ is_open s = true.
Proof.
  intros Hwin Hmac Hin Hp.
  set (ports := (glob_glob h "/dev/ttyUSB*" ++ glob_glob h "/dev/ttyACM*")%list).
  assert (Hcand : candidate_ports h = Ok ports).
  { unfold candidate_ports. rewrite Hwin, Hmac. reflexivity. }
  destruct (find_port_loop_spec h baud tmo ports [])
    as [r [probes [E [_ [Hfind Hs]]]]].
  destruct (find_app_first (answers_handshake h) _
              (glob_glob h "/dev/ttyACM*") p Hin Hp)
    as [y [Ey [Hy Hfy]]].
  fold ports in Ey. rewrite Ey in Hfind.
  destruct r as [s |]; [| discriminate Hfind].
  injection Hfind as Hport.
  exists s, probes. unfold find_port. rewrite Hcand.
  split; [exact E |]. rewrite Hport.
  split; [exact Hy | split; [exact Hfy | apply (Hs s eq_refl)]].
Qed.

Lemma find_port_prefers_ttyUSB_witness :
  exists s probes,
    find_port two_board_host 9600 3 = (Ok (Some s), probes)
    /\ In (port s) ["/dev/ttyUSB0"; "/dev/ttyUSB1"]
    /\ answers_handshake two_board_host (port s) = true
    /\ is_open s = true.
Proof.
  apply (find_port_prefers_ttyUSB two_board_host 9600 3 "/dev/ttyUSB1").
  - reflexivity.
  - reflexivity.
  - right. left. reflexivity.
  - reflexivity.
Defined.

(** The handshake reads one line without clearing the input first, so a
    device that sent anything else before the handshake is never bound,
    even when it goes on to answer [version]. *)
Theorem discovery_rejects_early_talker (h : Host) (baud tmo : Z)
    (p : string) (d : Device) (l : string) (rest : list string)
    (s : Serial) (probes : list Probe) :
  attached h p = Some d ->
  boot_lines d = l :: rest ->
  replace_crlf l <> "version" ->
  find_port h baud tmo = (Ok (Some s), probes) ->
  port s <> p.
Proof.
  intros Hd Hboot Hl Hfind Hport.
  assert (Hp : answers_handshake h p = false).
  { unfold answers_handshake, first_reply. rewrite Hd, Hboot.
    apply andb_false_iff. right. apply String.eqb_neq, Hl. }
  unfold find_port in Hfind.
  destruct (candidate_ports h) as [ports | e]; [| discriminate Hfind].
  destruct (find_port_loop_spec h baud tmo ports [])
    as [r [probes' [E [_ [Hr _]]]]].
  rewrite E in Hfind. injection Hfind as -> _.
  cbn [option_map] in Hr. symmetry in Hr.
  apply find_some in Hr. destruct Hr as [_ Hans].
  rewrite Hport, Hp in Hans. discriminate Hans.
Qed.

Lemma discovery_rejects_early_talker_witness :
  exists s probes,
    find_port greeting_board_host 9600 3 = (Ok (Some s), probes)
    /\ port s = "/dev/ttyACM0"
    /\ map probe_port probes = ["/dev/ttyUSB0"]
    /\ port s <> "/dev/ttyUSB0".
Proof.
  do 2 eexists.
  split; [reflexivity | split; [reflexivity | split; [reflexivity |]]].
  eapply (discovery_rejects_early_talker greeting_board_host 9600 3
            "/dev/ttyUSB0"
            (mkDevice ["ready" ++ CRLF] (lines_of ["version" ++ CRLF]) false)
            ("ready" ++ CRLF) []).
  - reflexivity.
  - reflexivity.
  - discriminate.
  - reflexivity.
Defined.

(** ** The constructor with a port or a connection *)

(** With a non-empty [port] and no connection the constructor opens that
    port and nothing else: no candidate is enumerated or probed, and no
    handshake is made, so that the session is bound whatever the device
    would answer, with the flush as the only call on the connection; when
    the port cannot be opened the [SerialException] comes through. *)
Theorem Arduino_init_explicit_port (h : Host) (baud tmo : Z)
    (port_arg : string) :
  port_arg <> "" ->
  Arduino_init h baud (Some port_arg) tmo None
  = match attached h port_arg with
    | Some d =>
        (Ok (mkArduino
               (mkSerial port_arg baud tmo true (rejects_writes d)
                         (boot_lines d) (replies d) 0 [CFlush])), [])
    | None => (Raise SerialException, [])
    end.
Proof.
  intros Hne. destruct port_arg as [| c r]; [congruence |].
  unfold Arduino_init, port_given, serial_Serial.
  destruct (attached h (String c r)) as [d |]; reflexivity.
Qed.

Lemma Arduino_init_explicit_port_witness :
  Arduino_init (three_port_host "version") 9600 (Some "/dev/ttyUSB1") 3 None
  = (Ok (mkArduino
           (mkSerial "/dev/ttyUSB1" 9600 3 true false []
                     (lines_of ["garbage" ++ CRLF]) 0 [CFlush])), [])
  /\ Arduino_init (three_port_host "version") 9600 (Some "/dev/ttyUSB0") 3 None
     = (Raise SerialException, []).
Proof.
  split.
  - apply (Arduino_init_explicit_port (three_port_host "version") 9600 3
             "/dev/ttyUSB1"). discriminate.
  - apply (Arduino_init_explicit_port (three_port_host "version") 9600 3
             "/dev/ttyUSB0"). discriminate.
Defined.

(** With a connection supplied the constructor looks at nothing else:
    host, port, baud rate and timeout play no part.  An open connection is
    flushed and becomes the session's as it is, its own settings, unread
    input and write fault included; a closed one makes the flush raise. *)
Theorem Arduino_init_supplied_connection (h : Host) (baud tmo : Z)
    (port_arg : option string) (conn : Serial) :
  Arduino_init h baud port_arg tmo (Some conn)
  = if is_open conn then (Ok (mkArduino (log_call CFlush conn)), [])
    else (Raise SerialException, []).
Proof.
  unfold Arduino_init, sr_flush. cbn [log_call is_open].
  destruct (is_open conn); reflexivity.
Qed.

(** ** What every operation does to the connection *)

Lemma clamp_max_min (val : Z) :
  (if (val >? 255)%Z then 255%Z else if (val <? 0)%Z then 0%Z else val)
  = Z.max 0 (Z.min 255 val).
Proof.
  destruct (Z.gtb_spec val 255); destruct (Z.ltb_spec val 0); lia.
Qed.

(** Take any session apart, whatever its state. *)
Ltac any_session self :=
  destruct self as [[p b t o w i wr a c]]; destruct o, w.

Ltac calls_prefix n :=
  exists n; rewrite <- ?app_assoc; rewrite ?app_nil_r; reflexivity.

(** Whatever the state of the session, the calls an operation makes are
    an initial part of: [flushInput] (for the operations that clear the
    input), one [write] of its frame, one [flush], and one [readline]
    (for the operations that read a reply).  So no operation writes twice,
    reads twice, or closes the connection. *)
Theorem operation_calls_prefix (py_int : string -> option Z)
    (op : operation) (self : Arduino) :
  exists n,
    calls (sr (snd (perform py_int op self)))
    = (calls (sr self) ++ firstn n (calls_of op))%list.
Proof.
  destruct op; any_session self; try (destruct i as [| l i]);
    unfold perform, analogWrite, analogRead, calls_of;
    rewrite ?clamp_max_min;
    unfold bind, self_sr, sr_flushInput, sr_write, sr_flush, sr_readline;
    cbn;
    repeat match goal with
           | |- context [match py_int ?x with _ => _ end] =>
               destruct (py_int x); cbn
           end;
    first [ calls_prefix 4 | calls_prefix 3 | calls_prefix 2
          | calls_prefix 1 | calls_prefix 0 ].
Qed.

Ltac run_operation py_int :=
  unfold perform, analogWrite, analogRead, calls_of, stripped_line;
  rewrite ?clamp_max_min, ?Nat.add_0_r;
  unfold bind, self_sr, sr_flushInput, sr_write, sr_flush, sr_readline;
  cbn;
  repeat match goal with
         | |- context [match py_int ?x with _ => _ end] =>
             destruct (py_int x); cbn
         end.

(** On a ready session every operation makes all of its calls, in order,
    and returns; the one exception is [analogRead], which raises
    [ValueError] after its calls when the reply is not an integer
    literal. *)
Theorem operation_on_ready_session (py_int : string -> option Z)
    (op : operation) (self : Arduino) :
  ready self = true ->
  calls (sr (snd (perform py_int op self)))
  = (calls (sr self) ++ calls_of op)%list
  /\ fst (perform py_int op self)
     = match op with
       | OpAnalogRead _ =>
           match py_int (stripped_line (sr self) 0) with
           | Some _ => Ok tt
           | None => Raise (ValueError "invalid literal for int()")
           end
       | _ => Ok tt
       end.
Proof.
  intros H. ready_session self H.
  destruct op; try (destruct i as [| l i]); run_operation py_int;
    rewrite <- ?app_assoc; split; reflexivity.
Qed.

Lemma operation_on_ready_session_witness :
  calls (sr (snd (perform decimal_int (OpAnalogRead (PInt 3))
                    (bench ["stale" ++ CRLF] ["512" ++ CRLF]))))
  = [CFlushInput; CWrite "@ar%3$!"; CFlush; CReadline]
  /\ fst (perform decimal_int (OpAnalogRead (PInt 3))
            (bench ["stale" ++ CRLF] ["512" ++ CRLF]))
     = Ok tt.
Proof.
  apply (operation_on_ready_session decimal_int (OpAnalogRead (PInt 3))
           (bench ["stale" ++ CRLF] ["512" ++ CRLF])).
  reflexivity.
Defined.

(** No operation changes the port, the baud rate or the timeout of the
    connection, opens or closes it, or alters the lines still to come,
    whatever the state of the session and whether it returns or raises. *)
Theorem operation_keeps_connection (py_int : string -> option Z)
    (op : operation) (self : Arduino) :
  same_connection (sr self) (sr (snd (perform py_int op self))).
Proof.
  destruct op; any_session self; try (destruct i as [| l i]);
    run_operation py_int; unfold same_connection; cbn; repeat split.
Qed.

(** On a closed session every operation raises [SerialException] at its
    first call on the connection, and makes no other call; [version] alone
    swallows the exception and returns. *)
Theorem operation_on_closed_session (py_int : string -> option Z)
    (op : operation) (self : Arduino) :
  is_open (sr self) = false ->
  perform py_int op self
  = (match op with
     | OpVersion => Ok tt
     | _ => Raise SerialException
     end,
     mkArduino
       (log_call (if clears_input op then CFlushInput
                  else CWrite (frame_of op))
                 (sr self))).
Proof.
  destruct self as [[p b t o w i wr a c]]. cbn [sr is_open]. intros ->.
  destruct op; run_operation py_int; reflexivity.
Qed.

Lemma operation_on_closed_session_witness :
  perform decimal_int (OpDigitalRead (PInt 7))
    (snd (close (bench [] ["1" ++ CRLF])))
  = (Raise SerialException,
     mkArduino
       (log_call CFlushInput (sr (snd (close (bench [] ["1" ++ CRLF])))))).
Proof.
  apply (operation_on_closed_session decimal_int (OpDigitalRead (PInt 7))
           (snd (close (bench [] ["1" ++ CRLF])))).
  reflexivity.
Defined.

(** ** Replies *)

(** [version] does not clear the input buffer: on a ready session it
    returns the oldest unread line when there is one, and only otherwise
    the next line that arrives; it takes exactly that one line. *)
Theorem version_returns_oldest_unread_line (self : Arduino) :
  ready self = true ->
  fst (version self) = Ok (Some (replace_crlf (next_line (sr self))))
  /\ inbuf (sr (snd (version self))) = tl (inbuf (sr self))
  /\ arrived (sr (snd (version self)))
     = match inbuf (sr self) with
       | [] => S (arrived (sr self))
       | _ :: _ => arrived (sr self)
       end.
Proof.
  intros H. ready_session self H.
  destruct i as [| l i]; cbn; repeat split.
Qed.

Lemma version_returns_oldest_unread_line_witness :
  fst (version (bench ["Ready" ++ CRLF] ["version" ++ CRLF]))
  = Ok (Some "Ready")
  /\ inbuf (sr (snd (version (bench ["Ready" ++ CRLF] ["version" ++ CRLF]))))
     = []
  /\ arrived (sr (snd (version (bench ["Ready" ++ CRLF] ["version" ++ CRLF]))))
     = 0.
Proof.
  apply (version_returns_oldest_unread_line
           (bench ["Ready" ++ CRLF] ["version" ++ CRLF])).
  reflexivity.
Defined.

(** When the write fails, on a closed port or on a device that rejects
    writes, [version] returns [None] instead of raising: it has made the
    write and nothing else, so no flush and no read, and the unread input
    is as before. *)
Theorem version_swallows_write_failure (self : Arduino) :
  ready self = false ->
  version self
  = (Ok None, mkArduino (log_call (CWrite "@version%$!") (sr self))).
Proof.
  destruct self as [[p b t o w i wr a c]].
  unfold ready. cbn [sr is_open write_fails]. intros H.
  destruct o, w; try discriminate H; reflexivity.
Qed.

Lemma version_swallows_write_failure_witness :
  version (snd (close (bench ["Ready" ++ CRLF] [])))
  = (Ok None,
     mkArduino (log_call (CWrite "@version%$!")
                  (sr (snd (close (bench ["Ready" ++ CRLF] [])))))).
Proof.
  apply (version_swallows_write_failure
           (snd (close (bench ["Ready" ++ CRLF] [])))).
  reflexivity.
Defined.

(** The session a reading operation leaves when it was ready: the input
    buffer is empty, one more line is taken from the wire, and the calls of
    the request and one read are on record. *)
Lemma read_after_request {A} (frame : string) (k : string -> M Arduino A)
    (self : Arduino) :
  ready self = true ->
  (request frame ;; line <- self_sr sr_readline ;; k (replace_crlf line)) self
  = k (stripped_line (sr self) 0)
      (mkArduino
         (take_from_wire (log_call CReadline (after_request frame (sr self))))).
Proof.
  intros H. ready_session self H.
  unfold stripped_line. cbn [sr wire arrived]. rewrite Nat.add_0_r.
  unfold bind at 1. rewrite request_ready by reflexivity.
  reflexivity.
Qed.

(** On a ready session [digitalRead], [I2CUnstick] and [getRegRaw] return
    the first line that arrives after the request, without its CR LF, and
    [analogRead] returns the integer it denotes or raises [ValueError]:
    the lines that were unread before the request are discarded and play
    no part. *)
Theorem reads_return_first_line_after_request
    (py_int : string -> option Z) (self : Arduino) (pin a r : pyval) :
  ready self = true ->
  let reply := stripped_line (sr self) 0 in
  let after frame :=
    mkArduino
      (take_from_wire (log_call CReadline (after_request frame (sr self)))) in
  digitalRead pin self
  = (Ok reply, after (build_cmd_str "dr" (ArgsTuple [pin])))
  /\ I2CUnstick self = (Ok reply, after "@un%$!")
  /\ getRegRaw a r self
     = (Ok reply, after (build_cmd_str "grr" (ArgsTuple [a; r])))
  /\ analogRead py_int pin self
     = (match py_int reply with
        | Some n => Ok n
        | None => Raise (ValueError "invalid literal for int()")
        end,
        after (build_cmd_str "ar" (ArgsTuple [pin]))).
Proof.
  intros H reply after.
  destruct (operations_clearing_input self)
    as [_ [_ [_ [_ [_ [_ [_ [_ [_ [Edr [Ear [Eun Egrr]]]]]]]]]]]].
  rewrite Edr, Eun, Egrr, (Ear py_int pin).
  rewrite (read_after_request _
             (fun rd => match py_int rd with
                        | Some n => ret n
                        | None => raise (ValueError "invalid literal for int()")
                        end) self H).
  rewrite !(read_after_request _ (fun rd => ret rd) self H).
  fold reply. unfold after, ret, raise.
  destruct (py_int reply); repeat split.
Qed.

Lemma reads_return_first_line_after_request_witness :
  fst (digitalRead (PInt 7) (bench ["stale" ++ CRLF] ["1" ++ CRLF])) = Ok "1"
  /\ fst (analogRead decimal_int (PInt 3)
            (bench ["stale" ++ CRLF] ["512" ++ CRLF]))
     = Ok 512%Z.
Proof.
  destruct (reads_return_first_line_after_request decimal_int
              (bench ["stale" ++ CRLF] ["1" ++ CRLF])
              (PInt 7) (PInt 0) (PInt 0) eq_refl) as [E1 _].
  destruct (reads_return_first_line_after_request decimal_int
              (bench ["stale" ++ CRLF] ["512" ++ CRLF])
              (PInt 3) (PInt 0) (PInt 0) eq_refl) as [_ [_ [_ E2]]].
  rewrite E1, E2. split; reflexivity.
Defined.

(** A read that times out with nothing received gives the empty string
    from [digitalRead], [I2CUnstick] and [getRegRaw], and, [int] rejecting
    the empty string, a [ValueError] from [analogRead]. *)
Theorem reads_on_timeout (py_int : string -> option Z) (self : Arduino)
    (pin a r : pyval) :
  ready self = true ->
  wire (sr self) (arrived (sr self)) = "" ->
  py_int "" = None ->
  fst (digitalRead pin self) = Ok ""
  /\ fst (I2CUnstick self) = Ok ""
  /\ fst (getRegRaw a r self) = Ok ""
  /\ fst (analogRead py_int pin self)
     = Raise (ValueError "invalid literal for int()").
Proof.
  intros H Hwire Hint.
  destruct (operations_clearing_input self)
    as [_ [_ [_ [_ [_ [_ [_ [_ [_ [Edr [Ear [Eun Egrr]]]]]]]]]]]].
  rewrite Edr, Eun, Egrr, (Ear py_int pin).
  rewrite (read_after_request _
             (fun rd => match py_int rd with
                        | Some n => ret n
                        | None => raise (ValueError "invalid literal for int()")
                        end) self H).
  rewrite !(read_after_request _ (fun rd => ret rd) self H).
  unfold stripped_line. rewrite Nat.add_0_r, Hwire. cbn [replace_crlf].
  rewrite Hint. repeat split.
Qed.

Lemma reads_on_timeout_witness :
  fst (digitalRead (PInt 7) (bench ["stale" ++ CRLF] [])) = Ok ""
  /\ fst (I2CUnstick (bench ["stale" ++ CRLF] [])) = Ok ""
  /\ fst (getRegRaw (PInt 72) (PInt 1) (bench ["stale" ++ CRLF] [])) = Ok ""
  /\ fst (analogRead decimal_int (PInt 3) (bench ["stale" ++ CRLF] []))
     = Raise (ValueError "invalid literal for int()").
Proof.
  apply (reads_on_timeout decimal_int (bench ["stale" ++ CRLF] [])
           (PInt 7) (PInt 72) (PInt 1)); reflexivity.
Defined.



(** ** Levels, modes and the sign of the pin *)

Lemma py_eq_false (v : pyval) (s : string) :
  v <> PStr s -> py_eq v (PStr s) = false.
Proof.
  intros H. destruct v as [z | t]; [reflexivity |].
  cbn. apply String.eqb_neq. intros ->. now apply H.
Qed.

(** Only the exact string [LOW] makes [digitalWrite] write low and only
    the exact string [INPUT] makes [pinMode] set an input: every other
    value, the integer [0] and lower-case spellings included, is sent as
    [HIGH], respectively as [OUTPUT]. *)
Theorem level_and_mode_by_exact_string (self : Arduino) (pin : Z)
    (val : pyval) :
  (val <> PStr "LOW" ->
   digitalWrite pin val self = digitalWrite pin (PStr "HIGH") self)
  /\ (val <> PStr "INPUT" ->
      pinMode pin val self = pinMode pin (PStr "OUTPUT") self).
Proof.
  split; intros H; unfold digitalWrite, pinMode;
    rewrite (py_eq_false val _ H); reflexivity.
Qed.

Lemma level_and_mode_by_exact_string_witness :
  digitalWrite 13 (PInt 0) (bench [] [])
  = digitalWrite 13 (PStr "HIGH") (bench [] [])
  /\ pinMode 13 (PStr "input") (bench [] [])
     = pinMode 13 (PStr "OUTPUT") (bench [] []).
Proof.
  destruct (level_and_mode_by_exact_string (bench [] []) 13 (PInt 0))
    as [Hdw _].
  destruct (level_and_mode_by_exact_string (bench [] []) 13 (PStr "input"))
    as [_ Hpm].
  split; [apply Hdw | apply Hpm]; discriminate.
Defined.

(** On a ready session and a pin [p > 0], [pinMode] with mode [INPUT]
    clears the input and writes the [pm] frame whose pin argument is a
    minus sign and the digits of [p]; with any other mode the frame has
    the digits of [p] alone. *)
Theorem pinMode_pin_sign (self : Arduino) (p : Z) (val : pyval) :
  ready self = true ->
  (0 < p)%Z ->
  pinMode p (PStr "INPUT") self
  = (Ok tt,
     mkArduino (after_request ("@pm%-" ++ py_str (PInt p) ++ "$!") (sr self)))
  /\ (val <> PStr "INPUT" ->
      pinMode p val self
      = (Ok tt,
         mkArduino
           (after_request ("@pm%" ++ py_str (PInt p) ++ "$!") (sr self)))).
Proof.
  intros Hready Hp.
  destruct (operations_clearing_input self) as [Epm _].
  split; [| intros Hval]; rewrite Epm, (request_ready _ self Hready).
  - cbn [py_eq String.eqb Ascii.eqb Bool.eqb].
    unfold build_cmd_str. cbn [py_truthy py_iter map py_join String.concat].
    rewrite (py_str_opp p Hp). reflexivity.
  - rewrite (py_eq_false val _ Hval). reflexivity.
Qed.

Lemma pinMode_pin_sign_witness :
  calls (sr (snd (pinMode 4 (PStr "INPUT") (bench [] []))))
  = [CFlushInput; CWrite "@pm%-4$!"; CFlush]
  /\ calls (sr (snd (pinMode 4 (PStr "INPUT_PULLUP") (bench [] []))))
     = [CFlushInput; CWrite "@pm%4$!"; CFlush].
Proof.
  destruct (pinMode_pin_sign (bench [] []) 4 (PStr "INPUT_PULLUP")
              eq_refl eq_refl) as [Hin Hother].
  rewrite Hin, Hother by discriminate. split; reflexivity.
Defined.

(** ** Frames of integer arguments *)

Lemma to_int_not_nil (z : Z) :
  Z.to_int z <> Decimal.Pos Decimal.Nil /\ Z.to_int z <> Decimal.Neg Decimal.Nil.
Proof.
  destruct z as [| q | q]; cbn; split; try discriminate;
    intros [= E]; exact (Unsigned.to_uint_nonnil q E).
Qed.

(** Different integers have different decimal notations. *)
Lemma py_str_int_inj (a b : Z) : py_str (PInt a) = py_str (PInt b) -> a = b.
Proof.
  unfold py_str. intros E.
  apply (f_equal NilZero.int_of_string) in E.
  destruct (to_int_not_nil a) as [Ha1 Ha2], (to_int_not_nil b) as [Hb1 Hb2].
  rewrite !NilZero.isi in E by assumption.
  injection E as E. apply DecimalZ.to_int_inj, E.
Qed.

Lemma py_str_int_not_empty (z : Z) : py_str (PInt z) <> "".
Proof.
  unfold py_str, NilZero.string_of_int, NilZero.string_of_uint.
  destruct (Z.to_int z) as [d | d]; destruct d; discriminate.
Qed.

Lemma append_inv_head (a x y : string) : a ++ x = a ++ y -> x = y.
Proof.
  induction a as [| c a IH]; cbn; intros E; [exact E |].
  injection E as E. apply IH, E.
Qed.

Lemma append_terminator_inv (x y : string) : x ++ "$!" = y ++ "$!" -> x = y.
Proof.
  intros E. apply (f_equal drop_terminator) in E.
  rewrite !drop_terminator_app in E. now injection E.
Qed.

(** The argument segment of a tuple is the join of its strings, also when
    the tuple is empty. *)
Lemma build_cmd_str_tuple (cmd : string) (l : list pyval) :
  build_cmd_str cmd (ArgsTuple l)
  = "@" ++ cmd ++ "%" ++ py_join "%" (map py_str l) ++ "$!".
Proof.
  destruct l; reflexivity.
Qed.

Lemma int_strings_clean (l : list Z) :
  Forall (fun s => contains "%" s = false) (map py_str (map PInt l)).
Proof.
  rewrite map_map. apply Forall_forall. intros s Hs.
  apply in_map_iff in Hs. destruct Hs as [z [<- _]].
  apply py_str_int_no_percent.
Qed.

Lemma py_join_not_empty (a : string) (l : list string) :
  a <> "" -> py_join "%" (a :: l) <> "".
Proof.
  intros Ha. destruct a as [| c a]; [congruence |].
  destruct l; discriminate.
Qed.

Lemma map_py_str_int_inj (l1 l2 : list Z) :
  map py_str (map PInt l1) = map py_str (map PInt l2) -> l1 = l2.
Proof.
  revert l2. induction l1 as [| a l1 IH]; intros [| b l2] E;
    try discriminate E; [reflexivity |].
  cbn in E. injection E as Ea El.
  f_equal; [apply py_str_int_inj, Ea | apply IH, El].
Qed.

Lemma frames_of_ints_inj (cmd : string) (l1 l2 : list Z) :
  build_cmd_str cmd (ArgsTuple (map PInt l1))
  = build_cmd_str cmd (ArgsTuple (map PInt l2)) ->
  l1 = l2.
Proof.
  rewrite !build_cmd_str_tuple. intros E.
  apply (append_inv_head "@"), (append_inv_head cmd), (append_inv_head "%"),
    append_terminator_inv in E.
  apply map_py_str_int_inj.
  destruct l1 as [| a l1], l2 as [| b l2]; [reflexivity | | |].
  - exfalso. symmetry in E. revert E.
    apply py_join_not_empty, py_str_int_not_empty.
  - exfalso. revert E. apply py_join_not_empty, py_str_int_not_empty.
  - rewrite <- (split_on_join (map py_str (map PInt (a :: l1))))
      by (try discriminate; apply int_strings_clean).
    rewrite <- (split_on_join (map py_str (map PInt (b :: l2))))
      by (try discriminate; apply int_strings_clean).
    now rewrite E.
Qed.

(** Whatever the command name, the frame of a tuple of integers determines
    the integers: two calls with different pin numbers, values or
    argument counts never send the same frame. *)
Theorem build_cmd_str_ints_injective (cmd : string) (l1 l2 : list Z) :
  build_cmd_str cmd (ArgsTuple (map PInt l1))
  = build_cmd_str cmd (ArgsTuple (map PInt l2)) ->
  l1 = l2.
Proof.
  exact (frames_of_ints_inj cmd l1 l2).
Qed.

Lemma build_cmd_str_ints_injective_witness :
  [9%Z; (200 + 55)%Z] = [(4 + 5)%Z; 255%Z].
Proof.
  apply (build_cmd_str_ints_injective "aw" [9; 200 + 55]%Z [4 + 5; 255]%Z).
  reflexivity.
Defined.

(** The sign of the pin carries the level, so [digitalWrite(p, LOW)] is
    the same request as [digitalWrite(-p, HIGH)] and [pinMode(p, INPUT)]
    the same as [pinMode(-p, OUTPUT)]; and the two levels, or the two
    modes, of one pin have the same frame exactly when the pin is 0. *)
Theorem sign_encoding_collisions (p : Z) :
  (forall self,
      digitalWrite p (PStr "LOW") self
      = digitalWrite (- p) (PStr "HIGH") self)
  /\ (forall self,
        pinMode p (PStr "INPUT") self = pinMode (- p) (PStr "OUTPUT") self)
  /\ (frame_of (OpDigitalWrite p (PStr "LOW"))
      = frame_of (OpDigitalWrite p (PStr "HIGH")) <-> p = 0%Z)
  /\ (frame_of (OpPinMode p (PStr "INPUT"))
      = frame_of (OpPinMode p (PStr "OUTPUT")) <-> p = 0%Z).
Proof.
  split; [reflexivity | split; [reflexivity |]].
  split; split; intros H; try (subst p; reflexivity);
    cbn [frame_of py_eq String.eqb Ascii.eqb Bool.eqb] in H;
    apply (frames_of_ints_inj _ [(- p)%Z] [p]) in H;
    injection H as H; lia.
Qed.

(** ** Unread input, the scan and the closed session *)

(** The operations that clear the input buffer are blind to what was
    unread: on a ready session neither their result nor the state they
    leave depends on the content of the input buffer.  This holds for the
    scan as well. *)
Theorem clearing_operations_ignore_unread_input
    (py_int : string -> option Z) (op : operation) (self : Arduino)
    (unread : list string) (fuel : nat) :
  ready self = true ->
  (clears_input op = true ->
   perform py_int op (mkArduino (set_inbuf unread (sr self)))
   = perform py_int op self)
  /\ I2CScan fuel (mkArduino (set_inbuf unread (sr self))) = I2CScan fuel self.
Proof.
  intros H. ready_session self H. split.
  - intros Hop. destruct op; try discriminate Hop; reflexivity.
  - reflexivity.
Qed.

Lemma clearing_operations_ignore_unread_input_witness :
  perform decimal_int (OpAnalogRead (PInt 3))
    (bench ["stale" ++ CRLF] ["512" ++ CRLF])
  = perform decimal_int (OpAnalogRead (PInt 3)) (bench [] ["512" ++ CRLF])
  /\ I2CScan 3 (bench ["stale" ++ CRLF] ["a" ++ CRLF; "done" ++ CRLF])
     = I2CScan 3 (bench [] ["a" ++ CRLF; "done" ++ CRLF]).
Proof.
  destruct (clearing_operations_ignore_unread_input decimal_int
              (OpAnalogRead (PInt 3)) (bench [] ["512" ++ CRLF])
              ["stale" ++ CRLF] 3 eq_refl) as [Hop _].
  destruct (clearing_operations_ignore_unread_input decimal_int
              OpSoftReset (bench [] ["a" ++ CRLF; "done" ++ CRLF])
              ["stale" ++ CRLF] 3 eq_refl) as [_ Hscan].
  split; [apply Hop; reflexivity | exact Hscan].
Defined.

(** A request that returned was made on a ready session. *)
Lemma I2CScan_request_ok (self self1 : Arduino) (u : unit) :
  I2CScan_request self = (Ok u, self1) -> ready self = true.
Proof.
  any_session self; cbn; intros E; try discriminate E; reflexivity.
Qed.

Lemma not_in_stripped_lines (s : Serial) (n : nat) :
  (forall j, j < n -> stripped_line s j <> "done") ->
  ~ In "done" (stripped_lines s n).
Proof.
  intros Hnone Hin. unfold stripped_lines in Hin.
  apply in_map_iff in Hin. destruct Hin as [j [Hj Hseq]].
  apply in_seq in Hseq. apply (Hnone j); [lia | exact Hj].
Qed.

(** What the scan returns on a ready session: with fuel for [m + 1] tests
    of the loop it returns exactly when one of the first [m - 1] lines is
    [done]. *)
Lemma I2CScan_result (self : Arduino) (m : nat) :
  ready self = true ->
  (exists n self',
      n + 2 <= S m
      /\ stripped_line (sr self) n = "done"
      /\ (forall j, j < n -> stripped_line (sr self) j <> "done")
      /\ (forall fuel, n + 2 <= fuel ->
            I2CScan fuel self = Some (Ok (stripped_lines (sr self) n), self')))
  \/ I2CScan (S m) self = None.
Proof.
  intros Hready.
  destruct (first_done_below (sr self) m) as [[n [Hn [Hd Hb]]] | Hnone].
  - left. destruct (I2CScan_returns self n Hready Hd Hb) as [self' [Hret _]].
    exists n, self'. repeat split; [lia | exact Hd | exact Hb | exact Hret].
  - right. rewrite (I2CScan_ready (S m) self Hready).
    destruct (I2CScan_request_ready self Hready) as [_ [Hread Hsame]].
    apply I2CScan_while_runs_on; [exact Hread | reflexivity |].
    intros j Hj. cbn [sr]. rewrite Hsame. apply Hnone, Hj.
Qed.

(** The list that [I2CScan] returns never contains the string [done], and
    it is the same whatever the fuel: once the loop has returned within
    some number of tests, it returns the same list and leaves the same
    session within any larger number. *)
Theorem I2CScan_result_excludes_done (fuel extra : nat) (self self' : Arduino)
    (l : list string) :
  I2CScan fuel self = Some (Ok l, self') ->
  ~ In "done" l
  /\ I2CScan (fuel + extra) self = Some (Ok l, self').
Proof.
  intros H.
  assert (Hready : ready self = true).
  { unfold I2CScan in H.
    destruct (I2CScan_request self) as [[u | e] self1] eqn:E;
      [exact (I2CScan_request_ok self self1 u E) | discriminate H]. }
  destruct fuel as [| m].
  { rewrite (I2CScan_ready 0 self Hready) in H. discriminate H. }
  destruct (I2CScan_result self m Hready)
    as [[n [self'' [Hn [Hd [Hb Hret]]]]] | Hnone].
  - rewrite (Hret (S m) Hn) in H. injection H as <- <-.
    split; [apply not_in_stripped_lines, Hb | apply Hret; lia].
  - rewrite Hnone in H. discriminate H.
Qed.

Lemma I2CScan_result_excludes_done_witness :
  exists self',
    I2CScan 4 (bench [] ["a" ++ CRLF; "" ; "done" ++ CRLF; "b" ++ CRLF])
    = Some (Ok ["a"; ""], self')
    /\ ~ In "done" ["a"; ""]
    /\ I2CScan (4 + 10) (bench [] ["a" ++ CRLF; "" ; "done" ++ CRLF; "b" ++ CRLF])
       = Some (Ok ["a"; ""], self').
Proof.
  eexists. split; [reflexivity |].
  apply (I2CScan_result_excludes_done 4 10
           (bench [] ["a" ++ CRLF; "" ; "done" ++ CRLF; "b" ++ CRLF])).
  reflexivity.
Defined.



(** After [close] the session is unusable and stays closed: every
    operation but [version] raises [SerialException], [version] returns
    [None], and the scan raises whatever the fuel. *)
Theorem use_after_close (py_int : string -> option Z) (op : operation)
    (fuel : nat) (self : Arduino) :
  let closed := snd (close self) in
  fst (perform py_int op closed)
  = match op with
    | OpVersion => Ok tt
    | _ => Raise SerialException
    end
  /\ fst (version closed) = Ok None
  /\ option_map fst (I2CScan fuel closed) = Some (Raise SerialException)
  /\ is_open (sr (snd (perform py_int op closed))) = false.
Proof.
  any_session self; cbn zeta;
    (split; [destruct op; run_operation py_int; reflexivity |]);
    (split; [reflexivity |]); (split; [reflexivity |]);
    destruct op; run_operation py_int; reflexivity.
Qed.
